(** * The machine-api-operator reconciliation core (pkg/operator/operator.go)

    A shallow embedding of the operator's work-queue loop, its sync
    pipeline, the bootstrap poll loop and configuration resolution,
    followed by the properties the design document states about them.

    Go code with side effects is written in a small monad [M]: a
    computation takes the current state (the work queue and the cluster
    the clients talk to), produces the list of observable events it
    caused, and either returns a value, terminates the process
    ([glog.Fatalf] calls [os.Exit]) or has not returned (it is blocked on
    the queue or on a channel). *)

From stdpp Require Import gmap strings list.
From Stdlib Require Import ZArith Lia.

Local Open Scope Z_scope.

(** ** Values shared by the whole package *)

(** A Go [error] is identified with its message; the nil error is [None]. *)
Definition error := string.

(** A Go pair [(value, error)] of which exactly one side is meaningful. *)
Inductive result (A : Type) :=
| Ok (a : A)
| Err (e : error).
Arguments Ok {A} a.
Arguments Err {A} e.

Definition result_err {A} (r : result A) : option error :=
  match r with Ok _ => None | Err e => Some e end.

(** [fmt.Errorf(prefix + "%v", err)] and [fmt.Errorf("%s" + suffix, s)]. *)
Definition Errorf_v (prefix : string) (err : error) : error := prefix +:+ err.
Definition Errorf_s (s suffix : string) : error := s +:+ suffix.

(** Modelled from the spec: [render.Images] (pkg/render is not part of this
    slice): the component-name to image-reference table. *)
Abbreviation Images := (gmap string string).

(** Modelled from the spec: [render.OperatorConfig] (pkg/render is not part
    of this slice): a target namespace, a provider identifier and the
    image mapping, the latter behind a pointer that is nil until
    [updateImageDetails] fills it. *)
Record OperatorConfig := mkOperatorConfig {
  TargetNamespace : string;
  Provider : string;
  Images_ : option Images
}.

(** [v1.ConfigMap], reduced to the field the operator reads. *)
Record ConfigMap := mkConfigMap {
  Data : gmap string string
}.

(** ** Observable events *)

(** The functions whose calls are recorded: the six pipeline stages of
    [sync] and the two creation steps of the bootstrap loop. *)
Inductive callee :=
| fn_syncCustomResourceDefinitions
| fn_getOperatorConfig
| fn_updateImageDetails
| fn_syncClusterAPIServer
| fn_syncClusterAPIController
| fn_syncAll
| fn_syncCluster
| fn_syncMachineSets.

Global Instance callee_eq_dec : EqDecision callee.
Proof. solve_decision. Defined.

(** Method calls on [optr.queue]. *)
Inductive queue_call :=
| CallAdd (key : string)
| CallGet
| CallDone (key : string)
| CallAddRateLimited (key : string)
| CallForget (key : string)
| CallNumRequeues (key : string)
| CallShutDown.

Global Instance queue_call_eq_dec : EqDecision queue_call.
Proof. solve_decision. Defined.

(** glog severities; [Verbose v] is [glog.V(v).Infof]. *)
Inductive severity := Info | Verbose (v : Z) | Error | Fatal.

Global Instance severity_eq_dec : EqDecision severity.
Proof. solve_decision. Defined.

(** Arguments of a log line. Instants and durations are not modelled:
    a [time.Time] or [time.Duration] argument is [LTime]. *)
Inductive logarg :=
| LString (s : string)
| LImages (i : option Images)
| LTime.

Global Instance logarg_eq_dec : EqDecision logarg.
Proof. solve_decision. Defined.

Inductive goroutine := GoBootstrap | GoWorker.

Global Instance goroutine_eq_dec : EqDecision goroutine.
Proof. solve_decision. Defined.

Inductive event :=
| EvQueue (c : queue_call)
| EvLog (sev : severity) (format : string) (args : list logarg)
| EvHandleError (err : error)            (* utilruntime.HandleError *)
| EvCall (f : callee) (r : option error) (* f was called and returned r *)
| EvGetConfigMap (ns name : string)      (* kubeClient.CoreV1().ConfigMaps(ns).Get(name) *)
| EvReadFile (path : string)             (* ioutil.ReadFile *)
| EvGo (g : goroutine).                  (* a go statement *)

Global Instance event_eq_dec : EqDecision event.
Proof. solve_decision. Defined.

(** ** The monad *)

Inductive outcome (S A : Type) :=
| Ret (a : A) (s : S)   (* the call returned a *)
| Exit (s : S)          (* the process was terminated (os.Exit) *)
| Pending (s : S).      (* the call has not returned *)
Arguments Ret {S A} a s.
Arguments Exit {S A} s.
Arguments Pending {S A} s.

Definition M (S A : Type) := S -> list event * outcome S A.

Definition ret {S A} (a : A) : M S A := fun s => ([], Ret a s).

Definition bind {S A B} (m : M S A) (k : A -> M S B) : M S B :=
  fun s =>
    match m s with
    | (evs, Ret a s') => let '(evs', o) := k a s' in (evs ++ evs', o)
    | (evs, Exit s') => (evs, Exit s')
    | (evs, Pending s') => (evs, Pending s')
    end.

Declare Scope go_scope.
Delimit Scope go_scope with go.
Notation "'let*' x ':=' c 'in' k" := (bind c (fun x => k))
  (at level 10, x pattern, c at level 100, k at level 200) : go_scope.
Notation "c >> k" := (bind c (fun _ => k))
  (at level 65, right associativity) : go_scope.
Local Open Scope go_scope.

Definition emit {S} (e : event) : M S unit := fun s => ([e], Ret tt s).
Definition gets {S A} (f : S -> A) : M S A := fun s => ([], Ret (f s) s).
Definition modify {S} (f : S -> S) : M S unit := fun s => ([], Ret tt (f s)).

(** [defer d] followed by body [m]: [d] runs when [m] returns. [os.Exit]
    does not run deferred calls, and a body that has not returned has
    not reached them. *)
Definition defer {S A} (d : M S unit) (m : M S A) : M S A :=
  let* a := m in d >> ret a.

Definition events {S A} (r : list event * outcome S A) : list event := fst r.
Definition result_of {S A} (r : list event * outcome S A) : outcome S A := snd r.

(** ** glog and utilruntime *)

Definition glog_Info {S} (msg : string) : M S unit := emit (EvLog Info msg []).
Definition glog_Infof {S} (format : string) (args : list logarg) : M S unit :=
  emit (EvLog Info format args).
Definition glog_V_Infof {S} (v : Z) (format : string) (args : list logarg) : M S unit :=
  emit (EvLog (Verbose v) format args).
Definition glog_Error {S} (msg : string) : M S unit := emit (EvLog Error msg []).

(** [glog.Fatalf] writes the line and calls [os.Exit(255)]: it does not
    return to its caller. *)
Definition glog_Fatalf {S} (format : string) (args : list logarg) : M S unit :=
  fun s => ([EvLog Fatal format args], Exit s).

(** [utilruntime.HandleError] hands the error to the process-wide error
    handlers (which log it); it returns. *)
Definition utilruntime_HandleError {S} (err : error) : M S unit := emit (EvHandleError err).

(** ** The work queue *)

Module workqueue.

(** [workqueue.RateLimitingInterface], as state-passing operations on a
    queue state [Q]. [Get] yields [None] while it blocks; otherwise the
    item (the empty string standing for nil) and the shutdown flag. *)
Class RateLimitingInterface (Q : Type) := {
  Add : string -> Q -> Q;
  Get : Q -> option (string * bool * Q);
  Done : string -> Q -> Q;
  AddRateLimited : string -> Q -> Q;
  Forget : string -> Q -> Q;
  NumRequeues : string -> Q -> Z;
  ShutDown : Q -> Q
}.

(** Modelled from the spec: the rate-limited, deduplicating queue of
    client-go (not part of this slice). [Add] enqueues a key that is not
    queued yet; [Get] hands out the oldest key that no worker holds
    unacknowledged, or reports shutdown, or blocks; [Done] ends the
    processing of a key, so that a key added in the meantime can be
    handed out again; [AddRateLimited] re-enqueues after the backoff
    delay; [Forget] resets the retry counter of a key; [NumRequeues]
    reports it. Time does not pass in the model: a key re-enqueued with
    a delay stays in [waiting], with the delay (in nanoseconds) it was
    given. *)
Record Type_ := mkQueue {
  items : list string;
  processing : gset string;
  failures : gmap string nat;
  waiting : list (string * Z);
  shuttingDown : bool
}.

(** 5ms, as a [time.Duration]. *)
Definition baseDelay : Z := 5 * 1000000.

(** Modelled from the spec: the delay after the n-th consecutive failure
    is base * 2^(n-1). *)
Definition backoff (n : nat) : Z := baseDelay * 2 ^ (Z.of_nat n - 1).

Definition empty : Type_ := mkQueue [] ∅ ∅ [] false.

Definition Type_Add (key : string) (q : Type_) : Type_ :=
  if shuttingDown q then q
  else if bool_decide (key ∈ items q) then q
  else mkQueue (items q ++ [key]) (processing q) (failures q) (waiting q) (shuttingDown q).

(** The oldest of the queued keys that is not being processed, and the
    keys that stay queued. *)
Fixpoint take_ready (held : gset string) (keys : list string)
    : option (string * list string) :=
  match keys with
  | [] => None
  | key :: rest =>
      if bool_decide (key ∈ held) then
        match take_ready held rest with
        | Some (key', rest') => Some (key', key :: rest')
        | None => None
        end
      else Some (key, rest)
  end.

Definition Type_Get (q : Type_) : option (string * bool * Type_) :=
  match take_ready (processing q) (items q) with
  | Some (key, rest) =>
      Some (key, false,
            mkQueue rest ({[key]} ∪ processing q) (failures q) (waiting q) (shuttingDown q))
  | None => if shuttingDown q then Some (EmptyString, true, q) else None
  end.

Definition Type_Done (key : string) (q : Type_) : Type_ :=
  mkQueue (items q) (processing q ∖ {[key]}) (failures q) (waiting q) (shuttingDown q).

Definition Type_NumRequeues (key : string) (q : Type_) : Z :=
  Z.of_nat (default O (failures q !! key)).

Definition Type_AddRateLimited (key : string) (q : Type_) : Type_ :=
  let n := S (default O (failures q !! key)) in
  mkQueue (items q) (processing q) (<[key := n]> (failures q))
          (waiting q ++ [(key, backoff n)]) (shuttingDown q).

Definition Type_Forget (key : string) (q : Type_) : Type_ :=
  mkQueue (items q) (processing q) (delete key (failures q)) (waiting q) (shuttingDown q).

Definition Type_ShutDown (q : Type_) : Type_ :=
  mkQueue (items q) (processing q) (failures q) (waiting q) true.

Global Instance Type_RateLimitingInterface : RateLimitingInterface Type_ := {|
  Add := Type_Add;
  Get := Type_Get;
  Done := Type_Done;
  AddRateLimited := Type_AddRateLimited;
  Forget := Type_Forget;
  NumRequeues := Type_NumRequeues;
  ShutDown := Type_ShutDown
|}.

End workqueue.

(** ** Collaborators outside this file *)

(** The parts of the operator that live elsewhere: the sync methods of
    [*Operator] defined in the package's other files, the kube client,
    the file system and the two decoders. [W] is the state of the world
    they act on (the cluster and the operator's disk). A read returns
    its result; a sync method returns its error and the world it left. *)
Class Collaborators (W : Type) := {
  do_syncCustomResourceDefinitions : W -> option error * W;
  do_syncClusterAPIServer : OperatorConfig -> W -> option error * W;
  do_syncClusterAPIController : OperatorConfig -> W -> option error * W;
  do_syncAll : OperatorConfig -> W -> option error * W;
  do_syncCluster : OperatorConfig -> W -> option error * W;
  do_syncMachineSets : OperatorConfig -> W -> option error * W;
  ConfigMaps_Get : string -> string -> W -> result ConfigMap;
  ReadFile : string -> W -> result (list Byte.byte);
  json_Unmarshal : list Byte.byte -> result Images;
  yaml_Unmarshal : list Byte.byte -> result OperatorConfig
}.

(** ** Caches, channels and polling *)

(** [cache.InformerSynced] is a [func() bool]; its answer depends on when
    it is asked, so it is indexed by the poll round. *)
Definition InformerSynced := nat -> bool.

(** The stop channel: [Some t] is closed from round [t] on, [None] is
    never closed. *)
Definition stop_channel := option nat.

Definition closed (stopCh : stop_channel) (t : nat) : bool :=
  match stopCh with
  | Some t0 => bool_decide (t0 <= t)%nat
  | None => false
  end.

(** Modelled from the spec: [cache.WaitForCacheSync] (client-go is not
    part of this slice) blocks until all the caches it is given report
    initial sync complete, and fails if the stop signal fires first.
    Round by round from round [t]; [None] when [fuel] rounds did not
    settle it. *)
Fixpoint WaitForCacheSync_from (fuel t : nat) (stopCh : stop_channel)
    (cacheSyncs : list InformerSynced) : option bool :=
  match fuel with
  | O => None
  | S fuel' =>
      if forallb (fun syncFunc : InformerSynced => syncFunc t) cacheSyncs then Some true
      else if closed stopCh t then Some false
      else WaitForCacheSync_from fuel' (S t) stopCh cacheSyncs
  end.

Definition ErrWaitTimeout : error := "timed out waiting for the condition".

(** ** The operator *)

Record state (Q W : Type) := mkState {
  queue : Q;   (* optr.queue *)
  world : W    (* what the clients and the file system see *)
}.
Arguments mkState {Q W} queue world.
Arguments queue {Q W} s.
Arguments world {Q W} s.

Definition set_queue {Q W} (f : Q -> Q) (s : state Q W) : state Q W :=
  mkState (f (queue s)) (world s).
Definition set_world {Q W} (w : W) (s : state Q W) : state Q W :=
  mkState (queue s) w.

(** maxRetries is the number of times the key is retried before it is
    dropped out of the queue. *)
Definition maxRetries : Z := 15.

Section Operator.
Context {Q W Obj : Type}.
Context `{!workqueue.RateLimitingInterface Q} `{!Collaborators W}.

Abbreviation St := (state Q W).

(** [*Operator]. The clients are the [Collaborators] instance and the
    queue is in the state; the listers and the event recorder are never
    read in this file, and daemonsetListerSynced is neither assigned nor
    read. *)
Record Operator := mkOperator {
  namespace : string;
  name : string;
  imagesFile : string;
  config : string;
  syncHandler : string -> M St (option error);
  crdListerSynced : InformerSynced;
  machineSetSynced : InformerSynced;
  deployListerSynced : InformerSynced
}.

(** *** Calls on the queue *)

Definition queue_Add (key : string) : M St unit :=
  emit (EvQueue (CallAdd key)) >> modify (set_queue (workqueue.Add key)).

Definition queue_Get : M St (string * bool) :=
  fun s =>
    match workqueue.Get (queue s) with
    | Some (key, quit, q') => ([EvQueue CallGet], Ret (key, quit) (set_queue (fun _ => q') s))
    | None => ([EvQueue CallGet], Pending s)
    end.

Definition queue_Done (key : string) : M St unit :=
  emit (EvQueue (CallDone key)) >> modify (set_queue (workqueue.Done key)).

Definition queue_AddRateLimited (key : string) : M St unit :=
  emit (EvQueue (CallAddRateLimited key)) >> modify (set_queue (workqueue.AddRateLimited key)).

Definition queue_Forget (key : string) : M St unit :=
  emit (EvQueue (CallForget key)) >> modify (set_queue (workqueue.Forget key)).

Definition queue_NumRequeues (key : string) : M St Z :=
  emit (EvQueue (CallNumRequeues key)) >> gets (fun s => workqueue.NumRequeues key (queue s)).

Definition queue_ShutDown : M St unit :=
  emit (EvQueue CallShutDown) >> modify (set_queue workqueue.ShutDown).

(** *** Calls on the collaborators *)

(** Runs [m] and records that [f] was called and which error it returned. *)
Definition traced {A} (f : callee) (errof : A -> option error) (m : M St A) : M St A :=
  let* a := m in emit (EvCall f (errof a)) >> ret a.

Definition lift_sync (f : callee) (step : W -> option error * W) : M St (option error) :=
  traced f id (fun s => let '(err, w) := step (world s) in ([], Ret err (set_world w s))).

Definition syncCustomResourceDefinitions : M St (option error) :=
  lift_sync fn_syncCustomResourceDefinitions do_syncCustomResourceDefinitions.
Definition syncClusterAPIServer (config : OperatorConfig) : M St (option error) :=
  lift_sync fn_syncClusterAPIServer (do_syncClusterAPIServer config).
Definition syncClusterAPIController (config : OperatorConfig) : M St (option error) :=
  lift_sync fn_syncClusterAPIController (do_syncClusterAPIController config).
Definition syncAll (config : OperatorConfig) : M St (option error) :=
  lift_sync fn_syncAll (do_syncAll config).
Definition syncCluster (config : OperatorConfig) : M St (option error) :=
  lift_sync fn_syncCluster (do_syncCluster config).
Definition syncMachineSets (config : OperatorConfig) : M St (option error) :=
  lift_sync fn_syncMachineSets (do_syncMachineSets config).

Definition kubeClient_ConfigMaps_Get (ns nm : string) : M St (result ConfigMap) :=
  emit (EvGetConfigMap ns nm) >> gets (fun s => ConfigMaps_Get ns nm (world s)).

Definition ioutil_ReadFile (file : string) : M St (result (list Byte.byte)) :=
  emit (EvReadFile file) >> gets (fun s => ReadFile file (world s)).

(** *** Change notifications *)

(** [cache.ResourceEventHandlerFuncs]; the payloads are [interface{}]. *)
Record ResourceEventHandlerFuncs := mkHandlerFuncs {
  AddFunc : Obj -> M St unit;
  UpdateFunc : Obj -> Obj -> M St unit;
  DeleteFunc : Obj -> M St unit
}.

Inductive notification :=
| OnAdd (obj : Obj)
| OnUpdate (oldObj newObj : Obj)
| OnDelete (obj : Obj).

Definition dispatch (h : ResourceEventHandlerFuncs) (n : notification) : M St unit :=
  match n with
  | OnAdd obj => AddFunc h obj
  | OnUpdate oldObj newObj => UpdateFunc h oldObj newObj
  | OnDelete obj => DeleteFunc h obj
  end.

(** A shared informer: the handlers registered on it and its HasSynced. *)
Record SharedIndexInformer := mkInformer {
  handlers : list ResourceEventHandlerFuncs;
  HasSynced : InformerSynced
}.

Definition AddEventHandler (h : ResourceEventHandlerFuncs) (inf : SharedIndexInformer)
    : SharedIndexInformer :=
  mkInformer (handlers inf ++ [h]) (HasSynced inf).

(** The seven informers [New] is given. *)
Record informers := mkInformers {
  machineSetInformer : SharedIndexInformer;
  configMapInformer : SharedIndexInformer;
  serviceAccountInfomer : SharedIndexInformer;
  crdInformer : SharedIndexInformer;
  deployInformer : SharedIndexInformer;
  clusterRoleInformer : SharedIndexInformer;
  clusterRoleBindingInformer : SharedIndexInformer
}.

Definition eventHandler (optr : Operator) : ResourceEventHandlerFuncs :=
  let workQueueKey := namespace optr +:+ "/" +:+ name optr in
  {| AddFunc := fun obj => queue_Add workQueueKey;
     UpdateFunc := fun old new => queue_Add workQueueKey;
     DeleteFunc := fun obj => queue_Add workQueueKey |}.

(** *** The error policy *)

Definition handleErr (optr : Operator) (err : option error) (key : string) : M St unit :=
  match err with
  | None => queue_Forget key
  | Some err =>
      let* n := queue_NumRequeues key in
      if bool_decide (n < maxRetries) then
        glog_V_Infof 2 "Error syncing operator %v: %v" [LString key; LString err] >>
        queue_AddRateLimited key
      else
        utilruntime_HandleError err >>
        glog_V_Infof 2 "Dropping operator %q out of the queue: %v" [LString key; LString err] >>
        queue_Forget key
  end.

(** *** Workers *)

Definition processNextWorkItem (optr : Operator) : M St bool :=
  let* (key, quit) := queue_Get in
  if (quit : bool) then ret false
  else
    defer (queue_Done key)
      (let* err := syncHandler optr key in
       handleErr optr err key >>
       ret true).

(** [for optr.processNextWorkItem() {}], unrolled [fuel] times; a loop
    that is still running then has not returned. *)
Fixpoint worker (fuel : nat) (optr : Operator) : M St unit :=
  match fuel with
  | O => fun s => ([], Pending s)
  | S fuel' =>
      let* again := processNextWorkItem optr in
      if (again : bool) then worker fuel' optr else ret tt
  end.

(** *** Configuration resolution *)

Definition set_TargetNamespace (ns : string) (c : OperatorConfig) : OperatorConfig :=
  mkOperatorConfig ns (Provider c) (Images_ c).
Definition set_Images (imgs : option Images) (c : OperatorConfig) : OperatorConfig :=
  mkOperatorConfig (TargetNamespace c) (Provider c) imgs.

Definition mcFromClusterConfig (optr : Operator) (cm : ConfigMap) : result OperatorConfig :=
  let mcKey := "mao-config" in
  match Data cm !! mcKey with
  | None => Err (Errorf_s mcKey " doesn't exist")
  | Some mcData =>
      match yaml_Unmarshal (String.list_byte_of_string mcData) with
      | Err err => Err (Errorf_v "failed unmarshalling config file: " err)
      | Ok operatorConfig =>
          if bool_decide (TargetNamespace operatorConfig = EmptyString) then
            Ok (set_TargetNamespace (namespace optr) operatorConfig)
          else Ok operatorConfig
      end
  end.

Definition getOperatorConfig (optr : Operator) : M St (result OperatorConfig) :=
  traced fn_getOperatorConfig result_err
    (let clusterConfigNamespace := "kube-system" in
     let clusterConfigName := "cluster-config-v1" in
     let* r := kubeClient_ConfigMaps_Get clusterConfigNamespace clusterConfigName in
     match r with
     | Err err => ret (Err (Errorf_v "could not find cluster-config-v1 namespace: " err))
     | Ok clusterConfig => ret (mcFromClusterConfig optr clusterConfig)
     end).

(** The loop [for _, file := range files] with its early return. *)
Fixpoint readFiles (files : list string) (filesData : gmap string (list Byte.byte))
    : M St (result (gmap string (list Byte.byte))) :=
  match files with
  | [] => ret (Ok filesData)
  | file :: files' =>
      let* r := ioutil_ReadFile file in
      match r with
      | Err err => ret (Err err)
      | Ok data => readFiles files' (<[file := data]> filesData)
      end
  end.

(** Returns the error and the config as the call leaves it behind the
    pointer it was given. *)
Definition updateImageDetails (optr : Operator) (config : OperatorConfig)
    : M St (option error * OperatorConfig) :=
  traced fn_updateImageDetails fst
    (let files := [imagesFile optr] in
     let* r := readFiles files ∅ in
     match r with
     | Err err => ret (Some err, config)
     | Ok filesData =>
         match json_Unmarshal (default [] (filesData !! imagesFile optr)) with
         | Err err => ret (Some err, config)
         | Ok imgs => ret (None, set_Images (Some imgs) config)
         end
     end).

(** *** The sync pipeline *)

Definition sync (optr : Operator) (key : string) : M St (option error) :=
  glog_V_Infof 4 "Started syncing operator %q (%v)" [LString key; LTime] >>
  defer (glog_V_Infof 4 "Finished syncing operator %q (%v)" [LString key; LTime])
    (let* err := syncCustomResourceDefinitions in
     match err with
     | Some err => ret (Some err)
     | None =>
     glog_Infof "Getting operator config using kubeclient" [] >>
     let* r := getOperatorConfig optr in
     match r with
     | Err err =>
         glog_Fatalf "Error decoding operator config: %v" [LString err] >>
         ret (Some err)
     | Ok operatorConfig =>
     let* (err, operatorConfig) := updateImageDetails optr operatorConfig in
     match err with
     | Some err =>
         glog_Fatalf "Error getting image details: %v" [LString err] >>
         ret (Some err)
     | None =>
     let* err := syncClusterAPIServer operatorConfig in
     match err with
     | Some err =>
         glog_Fatalf "Failed sync-up cluster apiserver: %v" [LString err] >>
         ret (Some err)
     | None =>
     glog_Info "Synched up cluster api server" >>
     let* err := syncClusterAPIController operatorConfig in
     match err with
     | Some err =>
         glog_Fatalf "Failed sync-up cluster api controller: %v" [LString err] >>
         ret (Some err)
     | None =>
     glog_Info "Synched up cluster api controller" >>
     syncAll operatorConfig
     end end end end end).

(** *** Run and the bootstrap loop *)

(** Modelled from the spec: [wait.Poll] (apimachinery is not part of this
    slice) tries the condition on every poll tick until it is done, it
    fails, or the timeout elapses. [attempts] is the number of ticks that
    fit into machineRolloutTimeout at machineRolloutPollInterval, two
    constants declared outside this file. *)
Fixpoint wait_Poll (attempts : nat) (condition : M St (bool * option error))
    : M St (option error) :=
  match attempts with
  | O => ret (Some ErrWaitTimeout)
  | S attempts' =>
      let* (done, err) := condition in
      match err with
      | Some err => ret (Some err)
      | None => if (done : bool) then ret None else wait_Poll attempts' condition
      end
  end.

(** The condition closure handed to [wait.Poll]. *)
Definition Run_condition (optr : Operator) : M St (bool * option error) :=
  let* r := getOperatorConfig optr in
  match r with
  | Err err => ret (false, Some (Errorf_v "error decoding operator config: " err))
  | Ok operatorConfig =>
  let* (err, operatorConfig) := updateImageDetails optr operatorConfig in
  match err with
  | Some err => ret (false, Some (Errorf_v "error getting image details: " err))
  | None =>
  glog_Infof "images %+v" [LImages (Images_ operatorConfig)] >>
  glog_Info "Trying to deploy Cluster object" >>
  let* err := syncCluster operatorConfig in
  match err with
  | Some err =>
      glog_Infof "Cannot create cluster, retrying: %v" [LString err] >>
      ret (false, None)
  | None =>
  glog_Info "Created Cluster object" >>
  glog_Info "Trying to deploy MachineSet object" >>
  let* err := syncMachineSets operatorConfig in
  match err with
  | Some err =>
      glog_Infof "Cannot create MachineSet, retrying: %v" [LString err] >>
      ret (false, None)
  | None =>
  glog_Info "Created MachineSet object Successfully" >>
  ret (true, None)
  end end end end.

(** The body of the goroutine [Run] starts for the bootstrap. *)
Definition Run_bootstrap (attempts : nat) (optr : Operator) : M St unit :=
  let* err := wait_Poll attempts (Run_condition optr) in
  match err with
  | Some err => glog_Fatalf "Error out while trying to deploy machines: %v" [LString err]
  | None => ret tt
  end.

Definition cache_WaitForCacheSync (fuel : nat) (stopCh : stop_channel)
    (cacheSyncs : list InformerSynced) : M St bool :=
  fun s =>
    match WaitForCacheSync_from fuel 0 stopCh cacheSyncs with
    | Some ok => ([], Ret ok s)
    | None => ([], Pending s)
    end.

(** [<-stopCh] returns once the channel is closed. *)
Definition receive (stopCh : stop_channel) : M St unit :=
  fun s => match stopCh with Some _ => ([], Ret tt s) | None => ([], Pending s) end.

(** [for i := 0; i < workers; i++ { go wait.Until(optr.worker, ...) }],
    with [n] iterations left. *)
Fixpoint start_workers (n : nat) : M St unit :=
  match n with
  | O => ret tt
  | S n' => emit (EvGo GoWorker) >> start_workers n'
  end.

(** [fuel] bounds the rounds the cache wait is followed for. The two
    goroutine bodies, [Run_bootstrap] and [worker], run concurrently and
    are not interleaved here: [Run] only records that it started them.
    [utilruntime.HandleCrash] acts on a panic only. *)
Definition Run (fuel : nat) (optr : Operator) (workers : Z) (stopCh : stop_channel) : M St unit :=
  defer queue_ShutDown
    (glog_Info "Starting MachineAPIOperator" >>
     defer (glog_Info "Shutting down MachineAPIOperator")
       (let* ok := cache_WaitForCacheSync fuel stopCh [deployListerSynced optr] in
        if negb ok then glog_Error "failed to sync caches"
        else
          glog_Info "Synched up caches" >>
          emit (EvGo GoBootstrap) >>
          start_workers (Z.to_nat workers) >>
          receive stopCh)).

(** *** New *)

(** The zero value of a func field. Calling a nil func panics, and nothing
    recovers it for good, so the process dies. *)
Definition nil_func {A B} : A -> M St B := fun _ s => ([], Exit s).

(** The struct literal first, then the assignments that follow it. The
    listers' synced fields are nil in the literal and are not called
    before they are assigned; [optr.sync] reads the namespace and the
    images file only, which the literal already holds. *)
Definition New (namespace name imagesFile config : string) (infs : informers)
    : Operator * informers :=
  let optr := mkOperator namespace name imagesFile EmptyString nil_func
                (fun _ => false) (fun _ => false) (fun _ => false) in
  let infs' :=
    {| machineSetInformer := AddEventHandler (eventHandler optr) (machineSetInformer infs);
       configMapInformer := AddEventHandler (eventHandler optr) (configMapInformer infs);
       serviceAccountInfomer := AddEventHandler (eventHandler optr) (serviceAccountInfomer infs);
       crdInformer := AddEventHandler (eventHandler optr) (crdInformer infs);
       deployInformer := AddEventHandler (eventHandler optr) (deployInformer infs);
       clusterRoleInformer := AddEventHandler (eventHandler optr) (clusterRoleInformer infs);
       clusterRoleBindingInformer :=
         AddEventHandler (eventHandler optr) (clusterRoleBindingInformer infs) |} in
  let optr := mkOperator namespace name imagesFile config (sync optr)
                (HasSynced (crdInformer infs'))
                (HasSynced (machineSetInformer infs'))
                (HasSynced (deployInformer infs')) in
  (optr, infs').

End Operator.

Arguments Operator Q W : clear implicits.
Arguments notification Obj : clear implicits.
Arguments ResourceEventHandlerFuncs Q W Obj : clear implicits.
Arguments SharedIndexInformer Q W Obj : clear implicits.
Arguments informers Q W Obj : clear implicits.

(** ** A scripted world for examples *)

Module fake.

(** The config maps and files the clients find, how many of the coming
    calls of each sync method are refused, and the methods that went
    through, oldest first. *)
Record World := mkWorld {
  configMaps : gmap (string * string) ConfigMap;
  disk : gmap string (list Byte.byte);
  refusals : callee -> nat;
  applied : list callee
}.

Definition refused : error := "refused".

Definition step (f : callee) (w : World) : option error * World :=
  match refusals w f with
  | S n =>
      (Some refused,
       mkWorld (configMaps w) (disk w)
               (fun g => if bool_decide (g = f) then n else refusals w g) (applied w))
  | O => (None, mkWorld (configMaps w) (disk w) (refusals w) (applied w ++ [f]))
  end.

(** The whole text is the target namespace; a text starting with a tab
    does not parse. *)
Definition parse_yaml (data : list Byte.byte) : result OperatorConfig :=
  match data with
  | Byte.x09 :: _ => Err "yaml: found character that cannot start any token"
  | _ => Ok (mkOperatorConfig (String.string_of_list_byte data) "libvirt" None)
  end.

(** An empty file does not parse; any other names one image. *)
Definition parse_json (data : list Byte.byte) : result Images :=
  match data with
  | [] => Err "unexpected end of JSON input"
  | _ => Ok {[ "clusterAPIControllerLibvirt" := String.string_of_list_byte data ]}
  end.

Global Instance World_Collaborators : Collaborators World := {|
  do_syncCustomResourceDefinitions := step fn_syncCustomResourceDefinitions;
  do_syncClusterAPIServer := fun _ => step fn_syncClusterAPIServer;
  do_syncClusterAPIController := fun _ => step fn_syncClusterAPIController;
  do_syncAll := fun _ => step fn_syncAll;
  do_syncCluster := fun _ => step fn_syncCluster;
  do_syncMachineSets := fun _ => step fn_syncMachineSets;
  ConfigMaps_Get := fun ns nm w =>
    match configMaps w !! (ns, nm) with
    | Some cm => Ok cm
    | None => Err ("configmaps " +:+ nm +:+ " not found")
    end;
  ReadFile := fun file w =>
    match disk w !! file with
    | Some data => Ok data
    | None => Err ("open " +:+ file +:+ ": no such file or directory")
    end;
  json_Unmarshal := parse_json;
  yaml_Unmarshal := parse_yaml
|}.

Abbreviation St := (state workqueue.Type_ World).

Definition images_path : string := "/etc/mao-config/images.json".

(** A cluster whose config object carries [fields], with the image file
    in place. *)
Definition world_with (fields : gmap string string) (refusals : callee -> nat) : World :=
  mkWorld {[ ("kube-system", "cluster-config-v1") := mkConfigMap fields ]}
          {[ images_path := String.list_byte_of_string "docker.io/openshift/origin-libvirt-machine-controllers:v4.0.0" ]}
          refusals [].

Definition good_fields : gmap string string := {[ "mao-config" := EmptyString ]}.

Definition no_refusals : callee -> nat := fun _ => O.
Definition refuse (f : callee) (n : nat) : callee -> nat :=
  fun g => if bool_decide (g = f) then n else O.

Definition key : string := "openshift-machine-api/machine-api-operator".

(** Informers without handlers yet; the deployment informer reports
    [deploy] for its cache, the six others report [others]. *)
Definition informers_with (deploy others : InformerSynced)
    : informers workqueue.Type_ World unit :=
  mkInformers (mkInformer [] others) (mkInformer [] others) (mkInformer [] others)
              (mkInformer [] others) (mkInformer [] deploy) (mkInformer [] others)
              (mkInformer [] others).

Definition always : InformerSynced := fun _ => true.
Definition never : InformerSynced := fun _ => false.

Definition optr_with (deploy others : InformerSynced) : Operator workqueue.Type_ World :=
  fst (New "openshift-machine-api" "machine-api-operator" images_path EmptyString
           (informers_with deploy others)).

Definition optr : Operator workqueue.Type_ World := optr_with always always.

(** A state in which the key is queued. *)
Definition queued (w : World) : St := mkState (workqueue.Add key workqueue.empty) w.

End fake.

(** ** Reading a trace *)

(** The recorded calls of a trace, in order. *)
Definition calls (evs : list event) : list (callee * option error) :=
  omap (fun e => match e with EvCall f r => Some (f, r) | _ => None end) evs.

(** The go statements of a trace. *)
Definition started (evs : list event) : list goroutine :=
  omap (fun e => match e with EvGo g => Some g | _ => None end) evs.

(** The calls on the queue of a trace. *)
Definition queue_calls (evs : list event) : list queue_call :=
  omap (fun e => match e with EvQueue c => Some c | _ => None end) evs.

(** The errors reported to the process-wide error aggregator. *)
Definition reported (evs : list event) : list error :=
  omap (fun e => match e with EvHandleError err => Some err | _ => None end) evs.

(** The log lines of severity Fatal. *)
Definition is_fatal (e : event) : bool :=
  match e with EvLog Fatal _ _ => true | _ => false end.
Definition fatal_lines (evs : list event) : list event := List.filter is_fatal evs.

(** The state an outcome leaves. *)
Definition outcome_state {S A} (o : outcome S A) : S :=
  match o with Ret _ s | Exit s | Pending s => s end.

(** The Get and the Done calls of a trace. *)
Definition is_Get (e : event) : bool :=
  match e with EvQueue CallGet => true | _ => false end.
Definition is_Done (e : event) : bool :=
  match e with EvQueue (CallDone _) => true | _ => false end.
Definition count (p : event -> bool) (evs : list event) : nat :=
  length (List.filter p evs).

(** The calls of [f] among recorded calls, and those that went through. *)
Definition is_attempt (f : callee) (c : callee * option error) : bool :=
  bool_decide (fst c = f).
Definition is_success (f : callee) (c : callee * option error) : bool :=
  bool_decide (fst c = f) && (if snd c is Some _ then false else true).
Definition number_of (p : callee * option error -> bool)
    (cs : list (callee * option error)) : nat :=
  length (List.filter p cs).

(** The creation attempts among the recorded calls. *)
Definition is_creation (c : callee * option error) : bool :=
  match c with
  | (fn_syncCluster, _) | (fn_syncMachineSets, _) => true
  | _ => false
  end.
Definition creations (cs : list (callee * option error)) : list (callee * option error) :=
  List.filter is_creation cs.

(** [retried_from f succeeded cs]: some call of [f] in [cs] comes after
    a call of [f] that succeeded ([succeeded] tells whether one did
    before [cs]). *)
Fixpoint retried_from (f : callee) (succeeded : bool) (cs : list (callee * option error))
    : bool :=
  match cs with
  | [] => false
  | (g, r) :: cs' =>
      if bool_decide (g = f) then
        succeeded || retried_from f (bool_decide (r = None)) cs'
      else retried_from f succeeded cs'
  end.
Definition retried_after_success (f : callee) (cs : list (callee * option error)) : bool :=
  retried_from f false cs.

(** The creation attempts of a loop run, tick after tick: a tick starts
    with the cluster object; the machine set is attempted only after
    the cluster object of the same tick went through; and the tick in
    which both went through is the last. *)
Fixpoint ticks_shape (cs : list (callee * option error)) : bool :=
  match cs with
  | [] => true
  | (fn_syncCluster, Some _) :: cs' => ticks_shape cs'
  | (fn_syncCluster, None) :: (fn_syncMachineSets, Some _) :: cs' => ticks_shape cs'
  | (fn_syncCluster, None) :: (fn_syncMachineSets, None) :: cs' => bool_decide (cs' = [])
  | _ => false
  end.



(** What one poll tick can be. *)
Inductive tick :=
| ConfigFailed (e : error)
| ImagesFailed (e : error)
| ClusterFailed (e : error)
| MachineSetsFailed (e : error)
| Created.

Definition tick_calls (t : tick) : list (callee * option error) :=
  match t with
  | ConfigFailed e => [(fn_getOperatorConfig, Some e)]
  | ImagesFailed e => [(fn_getOperatorConfig, None); (fn_updateImageDetails, Some e)]
  | ClusterFailed e =>
      [(fn_getOperatorConfig, None); (fn_updateImageDetails, None); (fn_syncCluster, Some e)]
  | MachineSetsFailed e =>
      [(fn_getOperatorConfig, None); (fn_updateImageDetails, None); (fn_syncCluster, None);
       (fn_syncMachineSets, Some e)]
  | Created =>
      [(fn_getOperatorConfig, None); (fn_updateImageDetails, None); (fn_syncCluster, None);
       (fn_syncMachineSets, None)]
  end.

Definition tick_result (t : tick) : bool * option error :=
  match t with
  | ConfigFailed e => (false, Some (Errorf_v "error decoding operator config: " e))
  | ImagesFailed e => (false, Some (Errorf_v "error getting image details: " e))
  | ClusterFailed _ | MachineSetsFailed _ => (false, None)
  | Created => (true, None)
  end.


(** A run of the poll loop with [n] attempts left: the ticks it goes
    through and the error it ends with. *)
Inductive poll_run : nat -> list tick -> option error -> Prop :=
| poll_timeout : poll_run O [] (Some ErrWaitTimeout)
| poll_created n : poll_run (S n) [Created] None
| poll_config n e :
    poll_run (S n) [ConfigFailed e] (snd (tick_result (ConfigFailed e)))
| poll_images n e :
    poll_run (S n) [ImagesFailed e] (snd (tick_result (ImagesFailed e)))
| poll_cluster n e ts r :
    poll_run n ts r -> poll_run (S n) (ClusterFailed e :: ts) r
| poll_machineSets n e ts r :
    poll_run n ts r -> poll_run (S n) (MachineSetsFailed e :: ts) r.

(** The six stages in the order of the design document. *)
Definition stage_order : list callee :=
  [fn_syncCustomResourceDefinitions; fn_getOperatorConfig; fn_updateImageDetails;
   fn_syncClusterAPIServer; fn_syncClusterAPIController; fn_syncAll].

(** The stages whose failure [sync] answers with [glog.Fatalf]. *)
Definition halts (f : callee) : bool :=
  match f with
  | fn_getOperatorConfig | fn_updateImageDetails
  | fn_syncClusterAPIServer | fn_syncClusterAPIController => true
  | _ => false
  end.

Section Specification.
Context {Q W : Type}.
Context `{!workqueue.RateLimitingInterface Q} `{!Collaborators W}.

(** A pipeline stage: it gets the config resolved so far and returns its
    error and the config it leaves. *)
Definition stage := OperatorConfig -> M (state Q W) (option error * OperatorConfig).

(** The Sync Pipeline in the words of the design document: the stages
    run strictly in order, a stage failure aborts the remaining stages
    and the error is returned immediately. *)
Fixpoint run_stages (stages : list stage) (c : OperatorConfig)
    : M (state Q W) (option error) :=
  match stages with
  | [] => ret None
  | st :: stages' =>
      let* (err, c') := st c in
      match err with
      | Some err => ret (Some err)
      | None => run_stages stages' c'
      end
  end.

Definition pipeline (optr : Operator Q W) : list stage :=
  [ fun c => let* err := syncCustomResourceDefinitions in ret (err, c);
    fun c => let* r := getOperatorConfig optr in
             ret (match r with Ok c' => (None, c') | Err err => (Some err, c) end);
    fun c => updateImageDetails optr c;
    fun c => let* err := syncClusterAPIServer c in ret (err, c);
    fun c => let* err := syncClusterAPIController c in ret (err, c);
    fun c => let* err := syncAll c in ret (err, c) ].

Definition Sync_as_specified (optr : Operator Q W) : M (state Q W) (option error) :=
  run_stages (pipeline optr) (mkOperatorConfig EmptyString EmptyString None).

(** Replays the calls a worker made on a queue that was in state [q],
    [held] being the item the worker holds: a Get comes only when no
    item is held, the item it hands out is held from then on, and
    nothing follows a Get that reported shutdown or blocked; a Done
    names the item held, which is released; every other call acts on
    the queue as the interface says. *)
Fixpoint acknowledged (cs : list queue_call) (q : Q) (held : option string) : bool :=
  match cs with
  | [] => true
  | CallGet :: cs' =>
      bool_decide (held = None) &&
      match workqueue.Get q with
      | Some (key, false, q') => acknowledged cs' q' (Some key)
      | Some (_, true, _) | None => bool_decide (cs' = [])
      end
  | CallDone key :: cs' =>
      bool_decide (held = Some key) && acknowledged cs' (workqueue.Done key q) None
  | CallAdd key :: cs' => acknowledged cs' (workqueue.Add key q) held
  | CallAddRateLimited key :: cs' => acknowledged cs' (workqueue.AddRateLimited key q) held
  | CallForget key :: cs' => acknowledged cs' (workqueue.Forget key q) held
  | CallNumRequeues _ :: cs' => acknowledged cs' q held
  | CallShutDown :: cs' => acknowledged cs' (workqueue.ShutDown q) held
  end.

(** [n] consecutive failed reconciliations of [key], each handed to the
    error policy. *)
Fixpoint fail_repeatedly (n : nat) (optr : Operator Q W) (err : error) (key : string)
    : M (state Q W) unit :=
  match n with
  | O => ret tt
  | S n' => handleErr optr (Some err) key >> fail_repeatedly n' optr err key
  end.

End Specification.

Section Properties.
Context {Q W Obj : Type}.
Context `{!workqueue.RateLimitingInterface Q} `{!Collaborators W}.

Implicit Types (optr : Operator Q W) (s : state Q W) (key : string).

Ltac go_unfold :=
  unfold defer, traced, lift_sync, glog_Info, glog_Infof, glog_V_Infof, glog_Error,
    glog_Fatalf, utilruntime_HandleError, queue_Add, queue_Done, queue_AddRateLimited,
    queue_Forget, queue_NumRequeues, queue_ShutDown, kubeClient_ConfigMaps_Get,
    ioutil_ReadFile, emit, gets, modify, ret, bind in *.

Ltac not_in_list :=
  repeat (apply not_elem_of_cons; split; [discriminate|]); apply not_elem_of_nil.

(** *** The error policy *)

Lemma handleErr_nil optr key s :
  handleErr optr None key s
  = ([EvQueue (CallForget key)], Ret tt (set_queue (workqueue.Forget key) s)).
Proof. reflexivity. Qed.

Lemma handleErr_retry optr err key s :
  workqueue.NumRequeues key (queue s) < maxRetries ->
  handleErr optr (Some err) key s
  = ([EvQueue (CallNumRequeues key);
      EvLog (Verbose 2) "Error syncing operator %v: %v" [LString key; LString err];
      EvQueue (CallAddRateLimited key)],
     Ret tt (set_queue (workqueue.AddRateLimited key) s)).
Proof.
  intros Hn. unfold handleErr. go_unfold. cbn.
  rewrite bool_decide_eq_true_2 by exact Hn. reflexivity.
Qed.

Lemma handleErr_drop optr err key s :
  maxRetries <= workqueue.NumRequeues key (queue s) ->
  handleErr optr (Some err) key s
  = ([EvQueue (CallNumRequeues key);
      EvHandleError err;
      EvLog (Verbose 2) "Dropping operator %q out of the queue: %v" [LString key; LString err];
      EvQueue (CallForget key)],
     Ret tt (set_queue (workqueue.Forget key) s)).
Proof.
  intros Hn. unfold handleErr. go_unfold. cbn.
  rewrite bool_decide_eq_false_2 by lia. reflexivity.
Qed.

(** Whatever the error and the key, the policy returns to its caller. *)
Lemma handleErr_returns optr err key s :
  exists evs s', handleErr optr err key s = (evs, Ret tt s') /\
                 (EvQueue (CallDone key) ∉ evs) /\ fatal_lines evs = [].
Proof.
  destruct err as [err|].
  - destruct (decide (workqueue.NumRequeues key (queue s) < maxRetries)) as [Hn|Hn].
    + rewrite handleErr_retry by exact Hn. do 2 eexists. split; [reflexivity|].
      split; [|reflexivity]. not_in_list.
    + rewrite handleErr_drop by lia. do 2 eexists. split; [reflexivity|].
      split; [|reflexivity]. not_in_list.
  - rewrite handleErr_nil. do 2 eexists. split; [reflexivity|].
    split; [|reflexivity]. not_in_list.
Qed.

(** C3: handleErr is a three-way classification. A nil error only calls
    Forget(key). A non-nil error with NumRequeues(key) < 15 is logged at
    verbosity 2 and the key is re-enqueued with AddRateLimited, and
    nothing is reported. A non-nil error with NumRequeues(key) >= 15 is
    reported to the error aggregator exactly once and the key is
    forgotten, with no AddRateLimited. *)
Theorem handleErr_three_way optr (err : option error) key s :
  let r := handleErr optr err key s in
  match err with
  | None =>
      r = ([EvQueue (CallForget key)], Ret tt (set_queue (workqueue.Forget key) s))
  | Some e =>
      if bool_decide (workqueue.NumRequeues key (queue s) < 15) then
        r = ([EvQueue (CallNumRequeues key);
              EvLog (Verbose 2) "Error syncing operator %v: %v" [LString key; LString e];
              EvQueue (CallAddRateLimited key)],
             Ret tt (set_queue (workqueue.AddRateLimited key) s))
        /\ reported (events r) = []
      else
        r = ([EvQueue (CallNumRequeues key);
              EvHandleError e;
              EvLog (Verbose 2) "Dropping operator %q out of the queue: %v"
                    [LString key; LString e];
              EvQueue (CallForget key)],
             Ret tt (set_queue (workqueue.Forget key) s))
        /\ reported (events r) = [e]
        /\ CallAddRateLimited key ∉ queue_calls (events r)
  end.
Proof.
  intros r. subst r. destruct err as [e|]; [|apply handleErr_nil].
  case_bool_decide as Hn.
  - rewrite handleErr_retry by exact Hn. split; reflexivity.
  - rewrite handleErr_drop by (unfold maxRetries; lia).
    split; [reflexivity|]. split; [reflexivity|].
    cbn. not_in_list.
Qed.

(** *** Change notifications *)

(** C9: whatever the notification (add, update or delete) and whatever
    its payload, the handler New registers on each of the seven watched
    collections enqueues exactly the one key namespace/name of the
    operator. *)
Theorem eventHandler_enqueues_the_singleton_key
    (ns nm imagesFile config : string) (infs : informers Q W Obj) :
  let optr := fst (New ns nm imagesFile config infs) in
  let infs' := snd (New ns nm imagesFile config infs) in
  let workQueueKey := ns +:+ "/" +:+ nm in
  Forall (fun informer : informers Q W Obj -> SharedIndexInformer Q W Obj =>
            handlers (informer infs') = handlers (informer infs) ++ [eventHandler optr])
         [machineSetInformer; configMapInformer; serviceAccountInfomer; crdInformer;
          deployInformer; clusterRoleInformer; clusterRoleBindingInformer]
  /\ forall (n : notification Obj) s,
       dispatch (eventHandler optr) n s
       = ([EvQueue (CallAdd workQueueKey)], Ret tt (set_queue (workqueue.Add workQueueKey) s)).
Proof.
  cbn. split.
  - repeat constructor.
  - intros [obj|old new|obj] s; reflexivity.
Qed.

(** *** Running the calls of the pipeline *)

Ltac go_simpl := cbn -[getOperatorConfig updateImageDetails lift_sync handleErr sync].

Lemma getOperatorConfig_runs optr s :
  exists r, getOperatorConfig optr s
    = ([EvGetConfigMap "kube-system" "cluster-config-v1";
        EvCall fn_getOperatorConfig (result_err r)], Ret r s).
Proof.
  unfold getOperatorConfig. go_unfold. cbn.
  destruct (ConfigMaps_Get _ _ _); cbn;
    [eexists (mcFromClusterConfig _ _)|eexists (Err _)]; reflexivity.
Qed.

Lemma updateImageDetails_runs optr c s :
  exists err c', updateImageDetails optr c s
    = ([EvReadFile (imagesFile optr); EvCall fn_updateImageDetails err], Ret (err, c') s).
Proof.
  unfold updateImageDetails, readFiles. go_unfold. cbn.
  destruct (ReadFile _ _); cbn; [|by eexists (Some _), _].
  destruct (json_Unmarshal _); cbn; [by eexists None, _|by eexists (Some _), _].
Qed.

Lemma lift_sync_runs f step s :
  exists err w, lift_sync f step s = ([EvCall f err], Ret err (set_world w s)).
Proof.
  unfold lift_sync. go_unfold. destruct (step (world s)) as [err w]. cbn.
  do 2 eexists; reflexivity.
Qed.

(** Every run of [sync]: the first [k] stages went through, stage [k+1]
    returned [r], and nothing else was called; the queue is not touched. *)
Lemma sync_run optr key s :
  exists (k : nat) (f : callee) (r : option error) (s' : state Q W) evs evs0,
    stage_order !! k = Some f /\
    sync optr key s
      = (evs, match r with
              | None => Ret None s'
              | Some e => if halts f then Exit s' else Ret (Some e) s'
              end) /\
    calls evs = ((fun g => (g, None)) <$> take k stage_order) ++ [(f, r)] /\
    queue_calls evs = [] /\
    length (fatal_lines evs)
      = match r with Some _ => if halts f then 1%nat else O | None => O end /\
    Sync_as_specified optr s = (evs0, Ret r s') /\
    calls evs0 = calls evs /\
    match r with None => k = 5%nat | Some _ => True end.
Proof.
  unfold sync, Sync_as_specified, pipeline, run_stages,
    syncCustomResourceDefinitions, syncClusterAPIServer, syncClusterAPIController, syncAll.
  unfold defer, glog_Info, glog_Infof, glog_V_Infof, glog_Fatalf, bind.
  go_simpl.
  destruct (lift_sync_runs fn_syncCustomResourceDefinitions
              do_syncCustomResourceDefinitions s) as (e1 & s1 & H1).
  rewrite H1. go_simpl. destruct e1 as [e1|]; go_simpl.
  { exists 0%nat. eexists _, (Some _), _, _, _. repeat split; reflexivity. }
  destruct (getOperatorConfig_runs optr (set_world s1 s)) as (r2 & H2).
  rewrite H2. go_simpl. destruct r2 as [c2|e2]; go_simpl.
  2:{ exists 1%nat. eexists _, (Some _), _, _, _. repeat split; reflexivity. }
  destruct (updateImageDetails_runs optr c2 (set_world s1 s)) as (e3 & c3 & H3).
  rewrite H3. go_simpl. destruct e3 as [e3|]; go_simpl.
  { exists 2%nat. eexists _, (Some _), _, _, _. repeat split; reflexivity. }
  destruct (lift_sync_runs fn_syncClusterAPIServer (do_syncClusterAPIServer c3)
              (set_world s1 s)) as (e4 & s4 & H4).
  rewrite H4. go_simpl. destruct e4 as [e4|]; go_simpl.
  { exists 3%nat. eexists _, (Some _), _, _, _. repeat split; reflexivity. }
  destruct (lift_sync_runs fn_syncClusterAPIController (do_syncClusterAPIController c3)
              (set_world s4 (set_world s1 s))) as (e5 & s5 & H5).
  rewrite H5. go_simpl. destruct e5 as [e5|]; go_simpl.
  { exists 4%nat. eexists _, (Some _), _, _, _. repeat split; reflexivity. }
  destruct (lift_sync_runs fn_syncAll (do_syncAll c3)
              (set_world s5 (set_world s4 (set_world s1 s)))) as (e6 & s6 & H6).
  rewrite H6. go_simpl.
  exists 5%nat. eexists _, e6, _, _, _. destruct e6; repeat split; reflexivity.
Qed.

(** C4 (as amended): sync runs the six stages strictly in order and
    stops at the first one that fails: the stages before it went
    through, the stages after it are not called, and the state is the
    one the executed stages left (nothing is rolled back), exactly as
    for the pipeline of the design document. When stage 1
    (syncCustomResourceDefinitions) or stage 6 (syncAll) fails, sync
    returns that stage's error unchanged. When stage 2, 3, 4 or 5 fails,
    sync calls glog.Fatalf: the process terminates and sync returns
    nothing. *)
Theorem sync_stops_at_first_failure optr key s :
  exists (k : nat) (f : callee) (r : option error) (s' : state Q W),
    stage_order !! k = Some f /\
    calls (events (sync optr key s))
      = ((fun g => (g, None)) <$> take k stage_order) ++ [(f, r)] /\
    calls (events (Sync_as_specified optr s)) = calls (events (sync optr key s)) /\
    result_of (Sync_as_specified optr s) = Ret r s' /\
    match r with
    | None => k = 5%nat /\ result_of (sync optr key s) = Ret None s'
    | Some e =>
        result_of (sync optr key s) = if halts f then Exit s' else Ret (Some e) s'
    end.
Proof.
  destruct (sync_run optr key s)
    as (k & f & r & s' & evs & evs0 & Hk & Hs & Hc & _ & _ & Hs0 & Hc0 & Hr).
  exists k, f, r, s'. rewrite Hs, Hs0. cbn [events result_of fst snd].
  repeat split; try assumption.
  destruct r; [reflexivity|]. split; [assumption|reflexivity].
Qed.

(** *** Workers *)

(** C10: processNextWorkItem returns false exactly when Get reports that
    the queue is shutting down. For an item it dequeued, it hands the
    sync handler's result to handleErr and then calls Done on the item,
    once, also when the result is an error; the calls are Get, the
    handler, handleErr, Done, in this order. (A handler that does not
    return leaves the function where it is.) *)
Theorem processNextWorkItem_acknowledges_once optr s :
  match workqueue.Get (queue s) with
  | None => processNextWorkItem optr s = ([EvQueue CallGet], Pending s)
  | Some (key, true, q') =>
      processNextWorkItem optr s
      = ([EvQueue CallGet], Ret false (set_queue (fun _ => q') s))
  | Some (key, false, q') =>
      match syncHandler optr key (set_queue (fun _ => q') s) with
      | (evs, Ret err s1) =>
          exists evs_e s2,
            handleErr optr err key s1 = (evs_e, Ret tt s2) /\
            (EvQueue (CallDone key) ∉ evs_e) /\
            processNextWorkItem optr s
            = (EvQueue CallGet :: evs ++ evs_e ++ [EvQueue (CallDone key)],
               Ret true (set_queue (workqueue.Done key) s2))
      | (evs, Exit s1) => processNextWorkItem optr s = (EvQueue CallGet :: evs, Exit s1)
      | (evs, Pending s1) =>
          processNextWorkItem optr s = (EvQueue CallGet :: evs, Pending s1)
      end
  end.
Proof.
  unfold processNextWorkItem, queue_Get, defer, bind.
  destruct (workqueue.Get (queue s)) as [[[key quit] q']|]; [|reflexivity].
  destruct quit; [reflexivity|].
  destruct (syncHandler optr key (set_queue (fun _ => q') s)) as [evs [err s1|s1|s1]];
    [|reflexivity..].
  destruct (handleErr_returns optr err key s1) as (evs_e & s2 & He & Hd & _).
  exists evs_e, s2. rewrite He. cbn.
  split; [reflexivity|]. split; [assumption|].
  by rewrite app_nil_r, <- app_assoc.
Qed.

(** What becomes of a dequeued item when the handler is [sync]. *)
Lemma processNextWorkItem_sync optr key s q' evs o :
  syncHandler optr = sync optr ->
  workqueue.Get (queue s) = Some (key, false, q') ->
  sync optr key (set_queue (fun _ => q') s) = (evs, o) ->
  match o with
  | Ret err s1 =>
      exists evs_e s2,
        handleErr optr err key s1 = (evs_e, Ret tt s2) /\
        fatal_lines evs_e = [] /\
        processNextWorkItem optr s
        = (EvQueue CallGet :: evs ++ evs_e ++ [EvQueue (CallDone key)],
           Ret true (set_queue (workqueue.Done key) s2))
  | Exit s1 => processNextWorkItem optr s = (EvQueue CallGet :: evs, Exit s1)
  | Pending s1 => processNextWorkItem optr s = (EvQueue CallGet :: evs, Pending s1)
  end.
Proof.
  intros Hh Hg Hs.
  unfold processNextWorkItem, queue_Get, defer, bind.
  rewrite Hg, Hh, Hs. destruct o as [err s1|s1|s1]; [|reflexivity..].
  destruct (handleErr_returns optr err key s1) as (evs_e & s2 & He & _ & Hf).
  exists evs_e, s2. rewrite He. cbn.
  split; [reflexivity|]. split; [assumption|].
  by rewrite app_nil_r, <- app_assoc.
Qed.

(** C1 (as amended): for a key a worker pulled, with sync as the
    handler: the error of stage 1 (syncCustomResourceDefinitions) or of
    stage 6 (syncAll) is returned by sync, handed to handleErr inside
    processNextWorkItem, and the worker goes on (the item is marked
    Done, the function returns true, no fatal line is written). When
    stage 2, 3, 4 or 5 fails, glog.Fatalf inside sync terminates the
    process before handleErr is reached. handleErr itself returns for
    every error value and never terminates the process. *)
Theorem pipeline_error_reaches_handleErr_unless_fatal optr key s q' :
  syncHandler optr = sync optr ->
  workqueue.Get (queue s) = Some (key, false, q') ->
  (exists (k : nat) (f : callee) (r : option error) evs,
     stage_order !! k = Some f /\
     events (sync optr key (set_queue (fun _ => q') s)) = evs /\
     last (calls evs) = Some (f, r) /\
     if bool_decide (is_Some r) && halts f then
       exists s1,
         processNextWorkItem optr s = (EvQueue CallGet :: evs, Exit s1) /\
         queue_calls (events (processNextWorkItem optr s)) = [CallGet] /\
         length (fatal_lines evs) = 1%nat
     else
       exists s1 evs_e s2,
         handleErr optr r key s1 = (evs_e, Ret tt s2) /\
         processNextWorkItem optr s
         = (EvQueue CallGet :: evs ++ evs_e ++ [EvQueue (CallDone key)],
            Ret true (set_queue (workqueue.Done key) s2)) /\
         fatal_lines (events (processNextWorkItem optr s)) = [])
  /\ (forall (err : option error) key0 s0,
        exists evs_e s2, handleErr optr err key0 s0 = (evs_e, Ret tt s2)).
Proof.
  intros Hh Hg. split.
  2:{ intros err key0 s0.
      destruct (handleErr_returns optr err key0 s0) as (evs_e & s2 & He & _).
      by exists evs_e, s2. }
  destruct (sync_run optr key (set_queue (fun _ => q') s))
    as (k & f & r & s1 & evs & evs0 & Hk & Hs & Hc & Hq & Hf & _).
  exists k, f, r, evs. rewrite Hs. cbn [events fst].
  split; [assumption|]. split; [reflexivity|].
  split; [rewrite Hc; apply last_snoc|].
  pose proof (processNextWorkItem_sync optr key s q' _ _ Hh Hg Hs) as Hp.
  destruct r as [e|]; cbn [bool_decide is_Some andb].
  - rewrite bool_decide_eq_true_2 by eauto. cbn [andb].
    destruct (halts f).
    + exists s1. rewrite Hp. cbn [events fst].
      change (queue_calls (EvQueue CallGet :: evs)) with (CallGet :: queue_calls evs).
      rewrite Hq. by repeat split.
    + destruct Hp as (evs_e & s2 & He & Hfe & Hp). exists s1, evs_e, s2.
      rewrite Hp. cbn [events fst]. repeat split; try assumption.
      unfold fatal_lines in *. cbn [List.filter is_fatal].
      rewrite !List.filter_app, Hfe. cbn.
      destruct (List.filter is_fatal evs); [reflexivity|discriminate].
  - rewrite bool_decide_eq_false_2 by (intros [? ?]; discriminate). cbn [andb].
    destruct Hp as (evs_e & s2 & He & Hfe & Hp). exists s1, evs_e, s2.
    rewrite Hp. cbn [events fst]. repeat split; try assumption.
    unfold fatal_lines in *. cbn [List.filter is_fatal].
    rewrite !List.filter_app, Hfe. cbn.
    destruct (List.filter is_fatal evs); [reflexivity|discriminate].
Qed.

(** *** Configuration resolution *)

(** C6: getOperatorConfig reads the config object named
    cluster-config-v1 in namespace kube-system, and nothing else, and
    takes its field mao-config. When the field is missing the result is
    the error "mao-config doesn't exist" and no OperatorConfig. When the
    field parses into a config with an empty TargetNamespace, the result
    is that config with TargetNamespace set to the operator's own
    namespace; a non-empty TargetNamespace is kept. *)
Theorem getOperatorConfig_resolution optr s :
  exists r,
    getOperatorConfig optr s
    = ([EvGetConfigMap "kube-system" "cluster-config-v1";
        EvCall fn_getOperatorConfig (result_err r)], Ret r s) /\
    match ConfigMaps_Get "kube-system" "cluster-config-v1" (world s) with
    | Err e => r = Err ("could not find cluster-config-v1 namespace: " +:+ e)
    | Ok cm =>
        match Data cm !! "mao-config" with
        | None => r = Err "mao-config doesn't exist"
        | Some mcData =>
            match yaml_Unmarshal (String.list_byte_of_string mcData) with
            | Err e => r = Err ("failed unmarshalling config file: " +:+ e)
            | Ok c =>
                if bool_decide (TargetNamespace c = EmptyString) then
                  r = Ok (mkOperatorConfig (namespace optr) (Provider c) (Images_ c))
                else r = Ok c
            end
        end
    end.
Proof.
  unfold getOperatorConfig. go_unfold. cbn.
  destruct (ConfigMaps_Get _ _ _) as [cm|e]; cbn; [|by eexists (Err _)].
  exists (mcFromClusterConfig optr cm). split; [reflexivity|].
  unfold mcFromClusterConfig. cbn.
  destruct (Data cm !! "mao-config") as [mcData|]; [|reflexivity].
  destruct (yaml_Unmarshal _) as [c|e]; [|reflexivity].
  case_bool_decide; reflexivity.
Qed.

(** *** The bootstrap loop *)

Lemma calls_app evs1 evs2 : calls (evs1 ++ evs2) = calls evs1 ++ calls evs2.
Proof. apply omap_app. Qed.

(** One tick of the poll condition. *)
Lemma Run_condition_tick optr s :
  exists t evs s',
    Run_condition optr s = (evs, Ret (tick_result t) s') /\ calls evs = tick_calls t.
Proof.
  unfold Run_condition, syncCluster, syncMachineSets.
  unfold glog_Info, glog_Infof, bind. go_simpl.
  destruct (getOperatorConfig_runs optr s) as (r1 & H1).
  rewrite H1. go_simpl. destruct r1 as [c1|e1]; go_simpl.
  2:{ eexists (ConfigFailed e1), _, _; split; reflexivity. }
  destruct (updateImageDetails_runs optr c1 s) as (e2 & c2 & H2).
  rewrite H2. go_simpl. destruct e2 as [e2|]; go_simpl.
  { eexists (ImagesFailed e2), _, _; split; reflexivity. }
  destruct (lift_sync_runs fn_syncCluster (do_syncCluster c2) s) as (e3 & s3 & H3).
  rewrite H3. go_simpl. destruct e3 as [e3|]; go_simpl.
  { eexists (ClusterFailed e3), _, _; split; reflexivity. }
  destruct (lift_sync_runs fn_syncMachineSets (do_syncMachineSets c2) (set_world s3 s))
    as (e4 & s4 & H4).
  rewrite H4. go_simpl. destruct e4 as [e4|]; go_simpl.
  { eexists (MachineSetsFailed e4), _, _; split; reflexivity. }
  eexists Created, _, _; split; reflexivity.
Qed.

(** The loop goes through ticks as [poll_run] says. *)
Lemma wait_Poll_run attempts optr s :
  exists ts err evs s',
    wait_Poll attempts (Run_condition optr) s = (evs, Ret err s') /\
    calls evs = concat (tick_calls <$> ts) /\
    poll_run attempts ts err.
Proof.
  revert s. induction attempts as [|n IH]; intros s.
  { exists [], (Some ErrWaitTimeout), [], s. repeat split. constructor. }
  destruct (Run_condition_tick optr s) as (t & evs & s' & Ht & Hc).
  cbn [wait_Poll]. unfold bind at 1. rewrite Ht.
  destruct t as [e|e|e|e|]; cbn [tick_result].
  - eexists [ConfigFailed e], _, _, _. cbn. rewrite !app_nil_r.
    split; [reflexivity|]. split; [assumption|]. apply poll_config.
  - eexists [ImagesFailed e], _, _, _. cbn. rewrite !app_nil_r.
    split; [reflexivity|]. split; [assumption|]. apply poll_images.
  - destruct (IH s') as (ts & err & evs' & s'' & Hw & Hc' & Hp). rewrite Hw.
    eexists (ClusterFailed e :: ts), err, _, _.
    split; [reflexivity|]. split; [|by constructor].
    rewrite calls_app, Hc, Hc'. reflexivity.
  - destruct (IH s') as (ts & err & evs' & s'' & Hw & Hc' & Hp). rewrite Hw.
    eexists (MachineSetsFailed e :: ts), err, _, _.
    split; [reflexivity|]. split; [|by constructor].
    rewrite calls_app, Hc, Hc'. reflexivity.
  - eexists [Created], _, _, _. cbn. rewrite !app_nil_r.
    split; [reflexivity|]. split; [assumption|]. apply poll_created.
Qed.

Lemma poll_run_shape n ts err :
  poll_run n ts err ->
  let cs := creations (concat (tick_calls <$> ts)) in
  ticks_shape cs = true /\ retried_from fn_syncMachineSets false cs = false.
Proof.
  induction 1 as [| | | |n e ts r _ [IH1 IH2]|n e ts r _ [IH1 IH2]]; cbn;
    try (split; reflexivity); split; assumption.
Qed.


(** The calls of one tick, from what the collaborators answer in the
    state the tick starts in. *)
Lemma Run_condition_calls optr s :
  match result_of (getOperatorConfig optr s) with
  | Ret (Ok c) _ =>
      match result_of (updateImageDetails optr c s) with
      | Ret (None, c') _ =>
          let cluster := do_syncCluster c' (world s) in
          calls (events (Run_condition optr s))
          = [(fn_getOperatorConfig, None); (fn_updateImageDetails, None);
             (fn_syncCluster, fst cluster)]
            ++ (if fst cluster is Some _ then []
                else [(fn_syncMachineSets, fst (do_syncMachineSets c' (snd cluster)))])
      | _ => creations (calls (events (Run_condition optr s))) = []
      end
  | _ => creations (calls (events (Run_condition optr s))) = []
  end.
Proof.
  destruct (getOperatorConfig_runs optr s) as (r1 & H1).
  unfold Run_condition, syncCluster, syncMachineSets.
  unfold glog_Info, glog_Infof, bind. rewrite H1. go_simpl.
  destruct r1 as [c1|e1]; go_simpl; [|reflexivity].
  destruct (updateImageDetails_runs optr c1 s) as (e2 & c2 & H2).
  rewrite H2. go_simpl. destruct e2 as [e2|]; go_simpl; [reflexivity|].
  unfold lift_sync, traced, emit, ret, bind. cbn.
  destruct (do_syncCluster c2 (world s)) as [[e3|] w3]; cbn; [reflexivity|].
  destruct (do_syncMachineSets c2 w3) as [[e4|] w4]; reflexivity.
Qed.

Lemma poll_run_counts n ts err :
  poll_run n ts err ->
  let cs := concat (tick_calls <$> ts) in
  number_of (is_attempt fn_syncCluster) cs
  = number_of (is_success fn_updateImageDetails) cs /\
  number_of (is_attempt fn_syncMachineSets) cs
  = number_of (is_success fn_syncCluster) cs.
Proof.
  unfold number_of.
  induction 1 as [| | | |n e ts r _ [IH1 IH2]|n e ts r _ [IH1 IH2]]; cbn in *;
    repeat match goal with
    | |- context [is_attempt ?f (?g, ?x)] =>
        let b := eval vm_compute in (is_attempt f (g, x)) in
        change (is_attempt f (g, x)) with b
    | |- context [is_success ?f (?g, ?x)] =>
        let b := eval vm_compute in (is_success f (g, x)) in
        change (is_success f (g, x)) with b
    end; cbn; split; congruence.
Qed.

(** C2 (as amended): the loop keeps no milestone between ticks. In
    whatever state a tick starts, once it is past step 1 it attempts
    the cluster object, and it attempts the machine set exactly when
    that attempt went through; a tick that fails in step 1 attempts
    neither. A loop run is a sequence of such ticks, each starting in
    the state the tick before left: it attempts the cluster object as
    often as a tick got past step 1, also after the cluster object went
    through on an earlier tick, and the machine set as often as the
    cluster object went through. The tick in which the machine set goes
    through ends the loop, so the machine-set creation is never retried
    once it has succeeded. *)
Theorem bootstrap_ticks_restart_at_the_cluster attempts optr s :
  (forall s0,
     match result_of (getOperatorConfig optr s0) with
     | Ret (Ok c) _ =>
         match result_of (updateImageDetails optr c s0) with
         | Ret (None, c') _ =>
             let cluster := do_syncCluster c' (world s0) in
             calls (events (Run_condition optr s0))
             = [(fn_getOperatorConfig, None); (fn_updateImageDetails, None);
                (fn_syncCluster, fst cluster)]
               ++ (if fst cluster is Some _ then []
                   else [(fn_syncMachineSets,
                          fst (do_syncMachineSets c' (snd cluster)))])
         | _ => creations (calls (events (Run_condition optr s0))) = []
         end
     | _ => creations (calls (events (Run_condition optr s0))) = []
     end)
  /\ exists ts err s',
       let r := wait_Poll attempts (Run_condition optr) s in
       let cs := calls (events r) in
       result_of r = Ret err s' /\
       cs = concat (tick_calls <$> ts) /\
       poll_run attempts ts err /\
       number_of (is_attempt fn_syncCluster) cs
       = number_of (is_success fn_updateImageDetails) cs /\
       number_of (is_attempt fn_syncMachineSets) cs
       = number_of (is_success fn_syncCluster) cs /\
       ticks_shape (creations cs) = true /\
       retried_after_success fn_syncMachineSets (creations cs) = false.
Proof.
  split; [intros s0; apply Run_condition_calls|].
  destruct (wait_Poll_run attempts optr s) as (ts & err & evs & s' & Hw & Hc & Hp).
  exists ts, err, s'. rewrite Hw. cbn [events result_of fst snd]. rewrite Hc.
  destruct (poll_run_counts _ _ _ Hp) as [Hn1 Hn2].
  destruct (poll_run_shape _ _ _ Hp) as [Hs1 Hs2].
  by repeat split.
Qed.


(** *** Run *)

Lemma WaitForCacheSync_from_true fuel t0 stopCh (cacheSyncs : list InformerSynced) :
  WaitForCacheSync_from fuel t0 stopCh cacheSyncs = Some true ->
  exists t, (t0 <= t)%nat /\
    forallb (fun f : InformerSynced => f t) cacheSyncs = true /\
    forall t', (t0 <= t' < t)%nat ->
      forallb (fun f : InformerSynced => f t') cacheSyncs = false /\ closed stopCh t' = false.
Proof.
  revert t0. induction fuel as [|fuel IH]; intros t0; cbn; [discriminate|].
  destruct (forallb _ cacheSyncs) eqn:Hs.
  - intros _. exists t0. split; [lia|]. split; [assumption|]. intros t' ?; lia.
  - destruct (closed stopCh t0) eqn:Hc; [discriminate|].
    intros (t & Ht & Hsync & Hbefore)%IH. exists t. split; [lia|]. split; [assumption|].
    intros t' Ht'. destruct (decide (t' = t0)) as [->|]; [done|]. apply Hbefore. lia.
Qed.

Lemma WaitForCacheSync_from_false fuel t0 stopCh (cacheSyncs : list InformerSynced) :
  WaitForCacheSync_from fuel t0 stopCh cacheSyncs = Some false ->
  exists t, (t0 <= t)%nat /\ closed stopCh t = true /\
    forall t', (t0 <= t' <= t)%nat ->
      forallb (fun f : InformerSynced => f t') cacheSyncs = false.
Proof.
  revert t0. induction fuel as [|fuel IH]; intros t0; cbn; [discriminate|].
  destruct (forallb _ cacheSyncs) eqn:Hs; [discriminate|].
  destruct (closed stopCh t0) eqn:Hc.
  - intros _. exists t0. split; [lia|]. split; [assumption|].
    intros t' ?. by replace t' with t0 by lia.
  - intros (t & Ht & Hstop & Hbefore)%IH. exists t. split; [lia|]. split; [assumption|].
    intros t' Ht'. destruct (decide (t' = t0)) as [->|]; [done|]. apply Hbefore. lia.
Qed.

(** With enough rounds, a stop that fires before the caches are in sync
    makes the wait fail. *)
Lemma WaitForCacheSync_from_stopped fuel t0 ts (cacheSyncs : list InformerSynced) :
  (t0 <= ts < t0 + fuel)%nat ->
  (forall t', (t0 <= t' <= ts)%nat ->
     forallb (fun f : InformerSynced => f t') cacheSyncs = false) ->
  WaitForCacheSync_from fuel t0 (Some ts) cacheSyncs = Some false.
Proof.
  revert t0. induction fuel as [|fuel IH]; intros t0 Ht Hs; [lia|]. cbn.
  rewrite Hs by lia. case_bool_decide; [reflexivity|].
  apply IH; [lia|]. intros t' ?. apply Hs. lia.
Qed.

Lemma start_workers_run n s :
  start_workers n s = (replicate n (EvGo GoWorker), Ret tt s).
Proof.
  induction n as [|n IH]; [reflexivity|].
  cbn [start_workers]. unfold bind, emit. rewrite IH. reflexivity.
Qed.

(** C7 (as amended): Run starts the bootstrap loop and the workers only
    after the wait for the deployment cache, the one cache it hands to
    WaitForCacheSync, has succeeded: the cache reported in sync at some
    round, before the stop signal; the CRD and machine-set caches are
    not consulted. When the stop signal fires first, the wait fails and
    Run logs the failure, shuts the queue down and returns, having
    started neither the bootstrap loop nor a worker; [fuel] rounds
    suffice as soon as they reach the round of the stop signal. *)
Theorem Run_waits_for_the_deployment_cache fuel optr workers stopCh s :
  let r := Run fuel optr workers stopCh s in
  match WaitForCacheSync_from fuel 0 stopCh [deployListerSynced optr] with
  | Some true =>
      (exists t, deployListerSynced optr t = true /\
         forall t', (t' < t)%nat ->
           deployListerSynced optr t' = false /\ closed stopCh t' = false) /\
      events r
      = [EvLog Info "Starting MachineAPIOperator" [];
         EvLog Info "Synched up caches" [];
         EvGo GoBootstrap]
        ++ replicate (Z.to_nat workers) (EvGo GoWorker)
        ++ (if stopCh is Some _ then
              [EvLog Info "Shutting down MachineAPIOperator" []; EvQueue CallShutDown]
            else [])
  | Some false =>
      (exists t, closed stopCh t = true /\
         forall t', (t' <= t)%nat -> deployListerSynced optr t' = false) /\
      r = ([EvLog Info "Starting MachineAPIOperator" [];
            EvLog Error "failed to sync caches" [];
            EvLog Info "Shutting down MachineAPIOperator" [];
            EvQueue CallShutDown],
           Ret tt (set_queue workqueue.ShutDown s))
  | None => r = ([EvLog Info "Starting MachineAPIOperator" []], Pending s)
  end
  /\ forall ts,
       stopCh = Some ts ->
       (forall t', (t' <= ts)%nat -> deployListerSynced optr t' = false) ->
       (ts < fuel)%nat ->
       started (events r) = [] /\
       result_of r = Ret tt (set_queue workqueue.ShutDown s).
Proof.
  assert (Hrun : forall ok,
    WaitForCacheSync_from fuel 0 stopCh [deployListerSynced optr] = ok ->
    Run fuel optr workers stopCh s
    = match ok with
      | Some true =>
          ([EvLog Info "Starting MachineAPIOperator" [];
            EvLog Info "Synched up caches" [];
            EvGo GoBootstrap]
           ++ replicate (Z.to_nat workers) (EvGo GoWorker)
           ++ (if stopCh is Some _ then
                 [EvLog Info "Shutting down MachineAPIOperator" []; EvQueue CallShutDown]
               else []),
           if stopCh is Some _ then Ret tt (set_queue workqueue.ShutDown s) else Pending s)
      | Some false =>
          ([EvLog Info "Starting MachineAPIOperator" [];
            EvLog Error "failed to sync caches" [];
            EvLog Info "Shutting down MachineAPIOperator" [];
            EvQueue CallShutDown],
           Ret tt (set_queue workqueue.ShutDown s))
      | None => ([EvLog Info "Starting MachineAPIOperator" []], Pending s)
      end).
  { intros ok Hok. unfold Run, defer, cache_WaitForCacheSync, bind at 1 2 3 4.
    cbn [glog_Info emit]. rewrite Hok.
    destruct ok as [[|]|]; [|reflexivity..].
    cbn [negb]. unfold bind at 1 2 3. cbn [glog_Info emit].
    unfold bind at 1. rewrite start_workers_run.
    destruct stopCh; cbn; rewrite ?app_nil_r, <- ?app_assoc; reflexivity. }
  intros r. subst r. split.
  - destruct (WaitForCacheSync_from fuel 0 stopCh [deployListerSynced optr])
      as [[|]|] eqn:Hw; rewrite (Hrun _ eq_refl).
    + split; [|reflexivity].
      apply WaitForCacheSync_from_true in Hw as (t & _ & Hs & Hb). exists t.
      cbn in Hs. rewrite andb_true_r in Hs. split; [assumption|].
      intros t' Ht'. destruct (Hb t') as [Hs' Hc']; [lia|].
      cbn in Hs'. rewrite andb_true_r in Hs'. by split.
    + split; [|reflexivity].
      apply WaitForCacheSync_from_false in Hw as (t & _ & Hc & Hb). exists t.
      split; [assumption|]. intros t' Ht'. specialize (Hb t').
      cbn in Hb. rewrite andb_true_r in Hb. apply Hb. lia.
    + reflexivity.
  - intros ts -> Hs Hfuel.
    rewrite (Hrun (Some false)); [by split|].
    apply WaitForCacheSync_from_stopped; [lia|].
    intros t' Ht'. cbn. rewrite andb_true_r. apply Hs. lia.
Qed.

(** The handler New installs is sync. *)
Lemma New_syncHandler (ns nm imagesFile config : string) (infs : informers Q W Obj) :
  let optr := fst (New ns nm imagesFile config infs) in
  syncHandler optr = sync optr.
Proof. reflexivity. Qed.

(** ** Further properties of the code *)

(** *** updateImageDetails *)

(** X1: updateImageDetails reads the one file optr.imagesFile and hands
    the bytes it read to the JSON decoder. A read error or a decode
    error is returned as it is, unwrapped, and the config is left as it
    was; on success only the Images field of the config changes. The
    state of the world is not touched. *)
Theorem updateImageDetails_passes_errors_through optr (c : OperatorConfig) s :
  updateImageDetails optr c s
  = match ReadFile (imagesFile optr) (world s) with
    | Err e =>
        ([EvReadFile (imagesFile optr); EvCall fn_updateImageDetails (Some e)],
         Ret (Some e, c) s)
    | Ok data =>
        match json_Unmarshal data with
        | Err e =>
            ([EvReadFile (imagesFile optr); EvCall fn_updateImageDetails (Some e)],
             Ret (Some e, c) s)
        | Ok imgs =>
            ([EvReadFile (imagesFile optr); EvCall fn_updateImageDetails None],
             Ret (None, mkOperatorConfig (TargetNamespace c) (Provider c) (Some imgs)) s)
        end
    end.
Proof.
  unfold updateImageDetails, readFiles. go_unfold. cbn.
  destruct (ReadFile _ _) as [data|e]; cbn; [|reflexivity].
  rewrite lookup_insert_eq. cbn.
  destruct (json_Unmarshal data); reflexivity.
Qed.

(** *** sync and the poll condition keep off the queue *)

(** X2: whatever happens in it, sync makes no call on the work queue,
    reports nothing to the error aggregator, starts no goroutine, and
    leaves the queue as it found it. *)
Theorem sync_keeps_off_the_queue optr key s :
  let r := sync optr key s in
  queue_calls (events r) = [] /\
  reported (events r) = [] /\
  started (events r) = [] /\
  queue (outcome_state (result_of r)) = queue s.
Proof.
  unfold sync, syncCustomResourceDefinitions, syncClusterAPIServer,
    syncClusterAPIController, syncAll.
  unfold defer, glog_Info, glog_Infof, glog_V_Infof, glog_Fatalf, bind.
  go_simpl.
  destruct (lift_sync_runs fn_syncCustomResourceDefinitions
              do_syncCustomResourceDefinitions s) as (e1 & s1 & H1).
  rewrite H1. go_simpl. destruct e1 as [e1|]; go_simpl; [by repeat split|].
  destruct (getOperatorConfig_runs optr (set_world s1 s)) as (r2 & H2).
  rewrite H2. go_simpl. destruct r2 as [c2|e2]; go_simpl; [|by repeat split].
  destruct (updateImageDetails_runs optr c2 (set_world s1 s)) as (e3 & c3 & H3).
  rewrite H3. go_simpl. destruct e3 as [e3|]; go_simpl; [by repeat split|].
  destruct (lift_sync_runs fn_syncClusterAPIServer (do_syncClusterAPIServer c3)
              (set_world s1 s)) as (e4 & s4 & H4).
  rewrite H4. go_simpl. destruct e4 as [e4|]; go_simpl; [by repeat split|].
  destruct (lift_sync_runs fn_syncClusterAPIController (do_syncClusterAPIController c3)
              (set_world s4 (set_world s1 s))) as (e5 & s5 & H5).
  rewrite H5. go_simpl. destruct e5 as [e5|]; go_simpl; [by repeat split|].
  destruct (lift_sync_runs fn_syncAll (do_syncAll c3)
              (set_world s5 (set_world s4 (set_world s1 s)))) as (e6 & s6 & H6).
  rewrite H6. go_simpl. by repeat split.
Qed.


(** A body between a line logged before it and a line deferred to its
    return. *)
Lemma logged_around {A} (pre post : event) (m : M (state Q W) A) s :
  (emit pre >> defer (emit post) m) s
  = (pre :: events (m s) ++ (if result_of (m s) is Ret _ _ then [post] else []),
     result_of (m s)).
Proof.
  unfold defer, bind, emit, ret, events, result_of.
  destruct (m s) as [evs [a s'|s'|s']]; cbn; by rewrite ?app_nil_r.
Qed.

(** X4: the key sync is given shows in its two verbosity-4 log lines
    and nowhere else: the events between these two lines and the way
    sync ends are the same for every key. *)
Theorem sync_ignores_its_key optr s :
  exists (body : list event) (o : outcome (state Q W) (option error)),
    forall key,
      sync optr key s
      = (EvLog (Verbose 4) "Started syncing operator %q (%v)" [LString key; LTime]
         :: body
         ++ (if o is Ret _ _ then
               [EvLog (Verbose 4) "Finished syncing operator %q (%v)" [LString key; LTime]]
             else []),
         o).
Proof.
  let t := eval unfold sync, defer in (sync optr EmptyString) in
  match t with
  | bind _ (fun _ => bind ?B _) => exists (events (B s)), (result_of (B s))
  end.
  intros key. unfold sync, glog_V_Infof. apply logged_around.
Qed.

(** *** The retry budget *)

(** Failures of a key whose counter stands at [n], up to the one that
    is dropped: [j] of them are re-enqueued, the next one is reported
    and the key forgotten. *)
Lemma fail_repeatedly_until_drop (j : nat) optr err key s :
  (forall k q, workqueue.NumRequeues k (workqueue.AddRateLimited k q)
               = workqueue.NumRequeues k q + 1) ->
  (forall k q, workqueue.NumRequeues k (workqueue.Forget k q) = 0) ->
  workqueue.NumRequeues key (queue s) + Z.of_nat j = maxRetries ->
  exists evs s',
    fail_repeatedly (S j) optr err key s = (evs, Ret tt s') /\
    queue_calls evs
    = concat (replicate j [CallNumRequeues key; CallAddRateLimited key])
      ++ [CallNumRequeues key; CallForget key] /\
    reported evs = [err] /\
    workqueue.NumRequeues key (queue s') = 0.
Proof.
  intros Hadd Hforget. revert s. induction j as [|j IH]; intros s Hn.
  - cbn [fail_repeatedly]. unfold bind.
    rewrite handleErr_drop by lia. cbn.
    eexists _, _. split; [reflexivity|]. repeat split. apply Hforget.
  - change (fail_repeatedly (S (S j)) optr err key)
      with (handleErr optr (Some err) key >> fail_repeatedly (S j) optr err key).
    unfold bind. rewrite handleErr_retry by lia.
    destruct (IH (set_queue (workqueue.AddRateLimited key) s))
      as (evs & s' & Hf & Hq & Hr & Hz).
    { cbn. rewrite Hadd. lia. }
    rewrite Hf. eexists _, s'. split; [reflexivity|].
    split; [|split; assumption].
    cbn. change (omap _ evs) with (queue_calls evs). by rewrite Hq.
Qed.

(** X5: on a queue whose counter follows its calls (AddRateLimited adds
    one, Forget resets to zero), a key with a fresh counter is
    re-enqueued on each of its first 15 consecutive failures; the 16th
    is reported to the error aggregator, once, and the key is forgotten,
    which leaves the counter at zero again. *)
Theorem the_16th_failure_drops_the_key optr err key s :
  (forall k q, workqueue.NumRequeues k (workqueue.AddRateLimited k q)
               = workqueue.NumRequeues k q + 1) ->
  (forall k q, workqueue.NumRequeues k (workqueue.Forget k q) = 0) ->
  workqueue.NumRequeues key (queue s) = 0 ->
  exists evs s',
    fail_repeatedly 16 optr err key s = (evs, Ret tt s') /\
    queue_calls evs
    = concat (replicate 15 [CallNumRequeues key; CallAddRateLimited key])
      ++ [CallNumRequeues key; CallForget key] /\
    reported evs = [err] /\
    workqueue.NumRequeues key (queue s') = 0.
Proof.
  intros Hadd Hforget Hz.
  apply (fail_repeatedly_until_drop 15); [assumption..|]. rewrite Hz. reflexivity.
Qed.

(** X6: a success gives the key its full budget back: on a queue whose
    Forget resets the counter, the failure that follows a successful
    sync is re-enqueued and not reported, however often the key had
    failed before. *)
Theorem success_restores_the_retry_budget optr err key s :
  (forall k q, workqueue.NumRequeues k (workqueue.Forget k q) = 0) ->
  exists s1,
    handleErr optr None key s = ([EvQueue (CallForget key)], Ret tt s1) /\
    handleErr optr (Some err) key s1
    = ([EvQueue (CallNumRequeues key);
        EvLog (Verbose 2) "Error syncing operator %v: %v" [LString key; LString err];
        EvQueue (CallAddRateLimited key)],
       Ret tt (set_queue (workqueue.AddRateLimited key) s1)).
Proof.
  intros Hforget. eexists. split; [apply handleErr_nil|].
  apply handleErr_retry. cbn. rewrite Hforget. reflexivity.
Qed.

(** *** The resolved configuration *)

(** X7: when the operator's own namespace is not empty, no config that
    getOperatorConfig resolves has an empty TargetNamespace. *)
Theorem resolved_TargetNamespace_is_set optr s (c : OperatorConfig) s' :
  namespace optr <> EmptyString ->
  result_of (getOperatorConfig optr s) = Ret (Ok c) s' ->
  TargetNamespace c <> EmptyString.
Proof.
  intros Hns. unfold getOperatorConfig. go_unfold. cbn.
  destruct (ConfigMaps_Get _ _ _) as [cm|e]; cbn; [|discriminate].
  unfold mcFromClusterConfig.
  destruct (Data cm !! "mao-config") as [mcData|]; [|discriminate].
  destruct (yaml_Unmarshal _) as [c0|e]; [|discriminate].
  case_bool_decide as Hc; intros [= <- _]; assumption.
Qed.

(** *** The worker loop *)

(** The two short paths of processNextWorkItem. *)
Lemma processNextWorkItem_short_paths optr s :
  match workqueue.Get (queue s) with
  | None => processNextWorkItem optr s = ([EvQueue CallGet], Pending s)
  | Some (key, true, q') =>
      processNextWorkItem optr s
      = ([EvQueue CallGet], Ret false (set_queue (fun _ => q') s))
  | Some (key, false, q') => True
  end.
Proof.
  unfold processNextWorkItem, queue_Get, defer, bind.
  destruct (workqueue.Get (queue s)) as [[[key quit] q']|]; [|reflexivity].
  destruct quit; [reflexivity|exact I].
Qed.


Lemma count_app p evs1 evs2 : count p (evs1 ++ evs2) = (count p evs1 + count p evs2)%nat.
Proof. unfold count. by rewrite List.filter_app, length_app. Qed.

Lemma count_no_queue_calls p evs :
  (forall e, p e = true -> exists c, e = EvQueue c) ->
  queue_calls evs = [] -> count p evs = O.
Proof.
  intros Hp. unfold count. induction evs as [|e evs IH]; [reflexivity|].
  cbn. destruct e; cbn; try discriminate;
    (destruct (p _) eqn:He; [apply Hp in He as [? [=]]|auto]).
Qed.

Lemma handleErr_no_Get_no_Done optr err key s :
  count is_Get (events (handleErr optr err key s)) = O /\
  count is_Done (events (handleErr optr err key s)) = O.
Proof.
  destruct err as [err|].
  - destruct (decide (workqueue.NumRequeues key (queue s) < maxRetries)) as [Hn|Hn].
    + rewrite handleErr_retry by exact Hn. split; reflexivity.
    + rewrite handleErr_drop by lia. split; reflexivity.
  - rewrite handleErr_nil. split; reflexivity.
Qed.

Lemma queue_calls_app evs1 evs2 :
  queue_calls (evs1 ++ evs2) = queue_calls evs1 ++ queue_calls evs2.
Proof. apply omap_app. Qed.

(** sync makes no call on the queue. *)
Lemma sync_keeps_quiet optr key s : queue_calls (events (sync optr key s)) = [].
Proof.
  destruct (sync_run optr key s) as (k & f & r & s' & evs & evs0 & _ & Hs & _ & Hq & _).
  by rewrite Hs.
Qed.

(** The counts of a worker's Get and Done calls, by the way it ends. *)
Lemma worker_counts fuel optr s :
  syncHandler optr = sync optr ->
  let r := worker fuel optr s in
  let gets := count is_Get (events r) in
  let dones := count is_Done (events r) in
  match result_of r with
  | Ret _ _ => gets = S dones /\ fatal_lines (events r) = []
  | Exit _ => gets = S dones /\ length (fatal_lines (events r)) = 1%nat
  | Pending _ => (gets = dones \/ gets = S dones) /\ fatal_lines (events r) = []
  end.
Proof.
  intros Hh. revert s. induction fuel as [|fuel IH]; intros s.
  { cbn. split; [by left|reflexivity]. }
  cbn [worker]. unfold bind.
  pose proof (processNextWorkItem_short_paths optr s) as Hp.
  destruct (workqueue.Get (queue s)) as [[[key quit] q']|] eqn:Hg.
  2:{ rewrite Hp. cbn. split; [by right|reflexivity]. }
  destruct quit.
  { rewrite Hp. cbn. by split. }
  clear Hp.
  destruct (sync_run optr key (set_queue (fun _ => q') s))
    as (k & f & r & s1 & evs & evs0 & _ & Hs & _ & Hq & Hf & _).
  pose proof (processNextWorkItem_sync optr key s q' _ _ Hh Hg Hs) as Hp.
  assert (HG : count is_Get evs = O).
  { apply count_no_queue_calls; [|assumption]. intros [[]| | | | | |]; try discriminate; eauto. }
  assert (HD : count is_Done evs = O).
  { apply count_no_queue_calls; [|assumption]. intros [[]| | | | | |]; try discriminate; eauto. }
  assert (Hrest : forall err,
    length (fatal_lines evs) = O ->
    (exists evs_e s2,
        handleErr optr err key s1 = (evs_e, Ret tt s2) /\
        fatal_lines evs_e = [] /\
        processNextWorkItem optr s
        = (EvQueue CallGet :: evs ++ evs_e ++ [EvQueue (CallDone key)],
           Ret true (set_queue (workqueue.Done key) s2))) ->
    let r := (let (evs1, o) := processNextWorkItem optr s in
              match o with
              | Ret a s' =>
                  let '(evs', o0) := (if (a : bool) then worker fuel optr else ret tt) s' in
                  (evs1 ++ evs', o0)
              | Exit s' => (evs1, Exit s')
              | Pending s' => (evs1, Pending s')
              end) in
    match result_of r with
    | Ret _ _ =>
        count is_Get (events r) = S (count is_Done (events r)) /\ fatal_lines (events r) = []
    | Exit _ =>
        count is_Get (events r) = S (count is_Done (events r)) /\
        length (fatal_lines (events r)) = 1%nat
    | Pending _ =>
        (count is_Get (events r) = count is_Done (events r) \/
         count is_Get (events r) = S (count is_Done (events r))) /\
        fatal_lines (events r) = []
    end).
  { intros err Hf0 (evs_e & s2 & He & Hfe & Hpe). rewrite Hpe. cbn zeta.
    specialize (IH (set_queue (workqueue.Done key) s2)). cbn zeta in IH.
    destruct (worker fuel optr (set_queue (workqueue.Done key) s2)) as [evs' o'].
    cbn [events result_of fst snd] in *.
    destruct (handleErr_no_Get_no_Done optr err key s1) as [HeG HeD].
    rewrite He in HeG, HeD. cbn [events fst] in HeG, HeD.
    assert (Hfl : fatal_lines
                    ((EvQueue CallGet :: evs ++ evs_e ++ [EvQueue (CallDone key)]) ++ evs')
                  = fatal_lines evs').
    { unfold fatal_lines in *. cbn [app List.filter is_fatal].
      rewrite !List.filter_app, Hfe. cbn.
      destruct (List.filter is_fatal evs); [reflexivity|discriminate]. }
    rewrite Hfl.
    change (EvQueue CallGet :: evs ++ evs_e ++ [EvQueue (CallDone key)])
      with ([EvQueue CallGet] ++ evs ++ evs_e ++ [EvQueue (CallDone key)]).
    rewrite !count_app, HG, HD, HeG, HeD.
    change (count is_Get [EvQueue CallGet]) with 1%nat.
    change (count is_Done [EvQueue CallGet]) with O.
    change (count is_Get [EvQueue (CallDone key)]) with O.
    change (count is_Done [EvQueue (CallDone key)]) with 1%nat.
    destruct o'; destruct IH as [IH1 IH2]; (split; [lia|assumption]). }
  destruct r as [e|].
  - destruct (halts f).
    + rewrite Hp. cbn [events result_of fst snd].
      change (EvQueue CallGet :: evs) with ([EvQueue CallGet] ++ evs).
      rewrite !count_app, HG, HD. split; [reflexivity|].
      unfold fatal_lines in *. by rewrite List.filter_app.
    + apply (Hrest (Some e)); assumption.
  - apply (Hrest None); assumption.
Qed.

(** sync leaves the queue as it is. *)
Lemma sync_frame optr key s :
  queue (outcome_state (result_of (sync optr key s))) = queue s.
Proof.
  unfold sync, syncCustomResourceDefinitions, syncClusterAPIServer,
    syncClusterAPIController, syncAll.
  unfold defer, glog_Info, glog_Infof, glog_V_Infof, glog_Fatalf, bind.
  go_simpl.
  destruct (lift_sync_runs fn_syncCustomResourceDefinitions
              do_syncCustomResourceDefinitions s) as (e1 & s1 & H1).
  rewrite H1. go_simpl. destruct e1 as [e1|]; go_simpl; [reflexivity|].
  destruct (getOperatorConfig_runs optr (set_world s1 s)) as (r2 & H2).
  rewrite H2. go_simpl. destruct r2 as [c2|e2]; go_simpl; [|reflexivity].
  destruct (updateImageDetails_runs optr c2 (set_world s1 s)) as (e3 & c3 & H3).
  rewrite H3. go_simpl. destruct e3 as [e3|]; go_simpl; [reflexivity|].
  destruct (lift_sync_runs fn_syncClusterAPIServer (do_syncClusterAPIServer c3)
              (set_world s1 s)) as (e4 & s4 & H4).
  rewrite H4. go_simpl. destruct e4 as [e4|]; go_simpl; [reflexivity|].
  destruct (lift_sync_runs fn_syncClusterAPIController (do_syncClusterAPIController c3)
              (set_world s4 (set_world s1 s))) as (e5 & s5 & H5).
  rewrite H5. go_simpl. destruct e5 as [e5|]; go_simpl; [reflexivity|].
  destruct (lift_sync_runs fn_syncAll (do_syncAll c3)
              (set_world s5 (set_world s4 (set_world s1 s)))) as (e6 & s6 & H6).
  rewrite H6. go_simpl. reflexivity.
Qed.

(** Replaying the calls of the error policy leads to the queue it left. *)
Lemma acknowledged_handleErr optr err key s evs_e s2 cs held :
  handleErr optr err key s = (evs_e, Ret tt s2) ->
  acknowledged (queue_calls evs_e ++ cs) (queue s) held
  = acknowledged cs (queue s2) held.
Proof.
  destruct err as [err|].
  - destruct (decide (workqueue.NumRequeues key (queue s) < maxRetries)) as [Hn|Hn].
    + rewrite handleErr_retry by exact Hn. by intros [= <- <-].
    + rewrite handleErr_drop by lia. by intros [= <- <-].
  - rewrite handleErr_nil. by intros [= <- <-].
Qed.

Lemma worker_replay fuel optr s :
  syncHandler optr = sync optr ->
  acknowledged (queue_calls (events (worker fuel optr s))) (queue s) None = true.
Proof.
  intros Hh. revert s. induction fuel as [|fuel IH]; intros s; [reflexivity|].
  cbn [worker]. unfold bind.
  pose proof (processNextWorkItem_short_paths optr s) as Hp.
  destruct (workqueue.Get (queue s)) as [[[key quit] q']|] eqn:Hg.
  2:{ rewrite Hp. cbn. by rewrite Hg. }
  destruct quit.
  { rewrite Hp. cbn. by rewrite Hg. }
  clear Hp.
  pose proof (sync_frame optr key (set_queue (fun _ => q') s)) as Hq.
  destruct (sync optr key (set_queue (fun _ => q') s)) as [evs o] eqn:Hs.
  pose proof (sync_keeps_quiet optr key (set_queue (fun _ => q') s)) as Hqc.
  rewrite Hs in Hqc. cbn [events result_of fst snd] in Hq, Hqc.
  pose proof (processNextWorkItem_sync optr key s q' _ _ Hh Hg Hs) as Hp.
  destruct o as [err s1|s1|s1]; cbn [outcome_state] in Hq.
  - destruct Hp as (evs_e & s2 & He & _ & Hp). rewrite Hp.
    specialize (IH (set_queue (workqueue.Done key) s2)).
    destruct (worker fuel optr (set_queue (workqueue.Done key) s2)) as [evs' o'].
    cbn [events fst] in *.
    change (EvQueue CallGet :: evs ++ evs_e ++ [EvQueue (CallDone key)])
      with ([EvQueue CallGet] ++ evs ++ evs_e ++ [EvQueue (CallDone key)]).
    rewrite !queue_calls_app, Hqc.
    change (queue_calls [EvQueue CallGet]) with [CallGet].
    change (queue_calls [EvQueue (CallDone key)]) with [CallDone key].
    cbn [app]. cbn [acknowledged]. rewrite Hg.
    rewrite bool_decide_eq_true_2 by done. cbn [andb]. rewrite <- app_assoc.
    replace q' with (queue s1) by exact Hq.
    rewrite (acknowledged_handleErr _ _ _ _ _ _ _ _ He).
    cbn [app acknowledged]. rewrite bool_decide_eq_true_2 by done. exact IH.
  - rewrite Hp. cbn [events fst].
    change (queue_calls (EvQueue CallGet :: evs)) with (CallGet :: queue_calls evs).
    rewrite Hqc. cbn. rewrite Hg. reflexivity.
  - rewrite Hp. cbn [events fst].
    change (queue_calls (EvQueue CallGet :: evs)) with (CallGet :: queue_calls evs).
    rewrite Hqc. cbn. rewrite Hg. reflexivity.
Qed.

(** X8: a worker whose handler is sync marks every item it pulled Done,
    under the key Get handed out, before it pulls the next one, and
    makes no call after a Get that reported shutdown: its calls on the
    queue replay as [acknowledged] says, from the queue it started
    with. When it returns, it has made one Get more than Done calls and
    no fatal line was written. When the process was terminated under
    it, the item in flight was not marked Done and exactly one fatal
    line was written. As long as it has not returned, it is between two
    items or inside a Get. *)
Theorem worker_acknowledges_every_item fuel optr s :
  syncHandler optr = sync optr ->
  let r := worker fuel optr s in
  let gets := count is_Get (events r) in
  let dones := count is_Done (events r) in
  acknowledged (queue_calls (events r)) (queue s) None = true /\
  match result_of r with
  | Ret _ _ => gets = S dones /\ fatal_lines (events r) = []
  | Exit _ => gets = S dones /\ length (fatal_lines (events r)) = 1%nat
  | Pending _ => (gets = dones \/ gets = S dones) /\ fatal_lines (events r) = []
  end.
Proof.
  intros Hh. cbn zeta. split; [by apply worker_replay|by apply worker_counts].
Qed.

(** *** Run, from start to return *)

(** What Run does, by the answer of the cache wait. *)
Lemma Run_run fuel optr workers stopCh s :
  Run fuel optr workers stopCh s
  = match WaitForCacheSync_from fuel 0 stopCh [deployListerSynced optr] with
    | Some true =>
        ([EvLog Info "Starting MachineAPIOperator" [];
          EvLog Info "Synched up caches" [];
          EvGo GoBootstrap]
         ++ replicate (Z.to_nat workers) (EvGo GoWorker)
         ++ (if stopCh is Some _ then
               [EvLog Info "Shutting down MachineAPIOperator" []; EvQueue CallShutDown]
             else []),
         if stopCh is Some _ then Ret tt (set_queue workqueue.ShutDown s) else Pending s)
    | Some false =>
        ([EvLog Info "Starting MachineAPIOperator" [];
          EvLog Error "failed to sync caches" [];
          EvLog Info "Shutting down MachineAPIOperator" [];
          EvQueue CallShutDown],
         Ret tt (set_queue workqueue.ShutDown s))
    | None => ([EvLog Info "Starting MachineAPIOperator" []], Pending s)
    end.
Proof.
  unfold Run, defer, cache_WaitForCacheSync, bind at 1 2 3 4.
  cbn [glog_Info emit].
  destruct (WaitForCacheSync_from fuel 0 stopCh [deployListerSynced optr])
    as [[|]|]; [|reflexivity..].
  cbn [negb]. unfold bind at 1 2 3. cbn [glog_Info emit].
  unfold bind at 1. rewrite start_workers_run.
  destruct stopCh; cbn; rewrite ?app_nil_r, <- ?app_assoc; reflexivity.
Qed.

Lemma started_app evs1 evs2 : started (evs1 ++ evs2) = started evs1 ++ started evs2.
Proof. apply omap_app. Qed.


Lemma started_workers n : started (replicate n (EvGo GoWorker)) = replicate n GoWorker.
Proof. induction n as [|n IH]; [reflexivity|]. cbn. f_equal. exact IH. Qed.


(** X10: once the cache wait has succeeded, Run starts the bootstrap
    loop, once, and then one worker per unit of [workers], in this
    order; when the wait has not succeeded it starts nothing. With zero
    or a negative number of workers and the deployment cache in sync
    from the first round, it starts the bootstrap loop and no worker. *)
Theorem Run_starts_the_bootstrap_first fuel optr workers stopCh s :
  let r := Run fuel optr workers stopCh s in
  started (events r)
  = (if WaitForCacheSync_from fuel 0 stopCh [deployListerSynced optr] is Some true
     then GoBootstrap :: replicate (Z.to_nat workers) GoWorker
     else [])
  /\ (workers <= 0 -> deployListerSynced optr O = true -> (0 < fuel)%nat ->
      started (events r) = [GoBootstrap]).
Proof.
  cbn zeta.
  assert (Hs : started (events (Run fuel optr workers stopCh s))
               = (if WaitForCacheSync_from fuel 0 stopCh [deployListerSynced optr]
                     is Some true
                  then GoBootstrap :: replicate (Z.to_nat workers) GoWorker
                  else [])).
  { rewrite Run_run.
    destruct (WaitForCacheSync_from fuel 0 stopCh [deployListerSynced optr]) as [[|]|];
      cbn [events fst]; [|reflexivity..].
    rewrite !started_app, started_workers.
    destruct stopCh; cbn; by rewrite app_nil_r. }
  split; [assumption|].
  intros Hw Hd Hf. rewrite Hs.
  destruct fuel as [|fuel]; [lia|]. cbn. rewrite Hd. cbn.
  by replace (Z.to_nat workers) with O by lia.
Qed.

(** *** The bootstrap loop on a broken configuration *)

(** X11: when the config object is there but lacks the field mao-config,
    the bootstrap goroutine does not poll: on its first tick, whatever
    the number of attempts the timeout allows, it terminates the
    process with the error of the missing field, having attempted no
    creation and changed nothing. *)
Theorem bootstrap_dies_on_a_missing_config_field attempts optr s (cm : ConfigMap) :
  ConfigMaps_Get "kube-system" "cluster-config-v1" (world s) = Ok cm ->
  Data cm !! "mao-config" = None ->
  Run_bootstrap (S attempts) optr s
  = ([EvGetConfigMap "kube-system" "cluster-config-v1";
      EvCall fn_getOperatorConfig (Some "mao-config doesn't exist");
      EvLog Fatal "Error out while trying to deploy machines: %v"
            [LString "error decoding operator config: mao-config doesn't exist"]],
     Exit s).
Proof.
  intros Hcm Hfield.
  assert (Hg : getOperatorConfig optr s
               = ([EvGetConfigMap "kube-system" "cluster-config-v1";
                   EvCall fn_getOperatorConfig (Some "mao-config doesn't exist")],
                  Ret (Err "mao-config doesn't exist") s)).
  { unfold getOperatorConfig. go_unfold. cbn. rewrite Hcm. cbn.
    unfold mcFromClusterConfig. rewrite Hfield. reflexivity. }
  unfold Run_bootstrap. cbn [wait_Poll]. unfold Run_condition.
  unfold bind. rewrite Hg. reflexivity.
Qed.

End Properties.

(** ** The backoff of the rate-limited queue *)

Section Backoff.
Context {W : Type} `{!Collaborators W}.

Implicit Types (optr : Operator workqueue.Type_ W) (s : state workqueue.Type_ W).

Lemma backoff_increasing (i j : nat) :
  (1 <= i < j)%nat -> workqueue.backoff i < workqueue.backoff j.
Proof.
  intros Hij. unfold workqueue.backoff, workqueue.baseDelay.
  apply Z.mul_lt_mono_pos_l; [lia|]. apply Z.pow_lt_mono_r; lia.
Qed.

(** [j] more failures of a key that has failed [n] times in a row. *)
Lemma fail_repeatedly_from (j : nat) optr err key s :
  let n := default O (workqueue.failures (queue s) !! key) in
  (n + j <= 15)%nat ->
  exists evs s',
    fail_repeatedly j optr err key s = (evs, Ret tt s') /\
    workqueue.waiting (queue s')
    = workqueue.waiting (queue s)
      ++ ((fun i => (key, workqueue.backoff i)) <$> seq (S n) j) /\
    reported evs = [].
Proof.
  revert s. induction j as [|j IH]; intros s n Hn.
  { exists [], s. cbn. by rewrite app_nil_r. }
  cbn [fail_repeatedly]. unfold bind.
  rewrite handleErr_retry
    by (cbn; unfold workqueue.Type_NumRequeues, maxRetries; fold n; lia).
  destruct (IH (set_queue (workqueue.AddRateLimited key) s)) as (evs & s' & Hf & Hw & Hr).
  { cbn. rewrite lookup_insert_eq. cbn. fold n. lia. }
  rewrite Hf. eexists _, s'. split; [reflexivity|]. split.
  - rewrite Hw. cbn. rewrite lookup_insert_eq. cbn. fold n.
    by rewrite <- app_assoc.
  - cbn. exact Hr.
Qed.

(** C8: a key that has failed K times in a row, K < 15, was re-enqueued
    after each failure, and the delay computed at the K-th failure is
    5ms * 2^(K-1); the delays of the K failures grow strictly. *)
Theorem backoff_doubles_until_the_drop optr err key (K : nat) s :
  workqueue.failures (queue s) !! key = None ->
  (1 <= K < 15)%nat ->
  exists evs s' (delays : list Z),
    fail_repeatedly K optr err key s = (evs, Ret tt s') /\
    reported evs = [] /\
    workqueue.waiting (queue s')
    = workqueue.waiting (queue s) ++ ((fun d => (key, d)) <$> delays) /\
    length delays = K /\
    last delays = Some (5000000 * 2 ^ (Z.of_nat K - 1)) /\
    (forall J : nat, (1 <= J <= K)%nat ->
       delays !! (J - 1)%nat = Some (5000000 * 2 ^ (Z.of_nat J - 1))) /\
    (forall (i j : nat) di dj,
       delays !! i = Some di -> delays !! j = Some dj -> (i < j)%nat -> di < dj).
Proof.
  intros Hfresh HK.
  destruct (fail_repeatedly_from K optr err key s) as (evs & s' & Hf & Hw & Hr).
  { rewrite Hfresh. cbn. lia. }
  rewrite Hfresh in Hw. cbn [default] in Hw.
  exists evs, s', (workqueue.backoff <$> seq 1 K).
  assert (Hlook : forall J : nat, (1 <= J <= K)%nat ->
            (workqueue.backoff <$> seq 1 K) !! (J - 1)%nat
            = Some (5000000 * 2 ^ (Z.of_nat J - 1))).
  { intros J HJ. rewrite list_lookup_fmap, lookup_seq_lt by lia.
    cbn. unfold workqueue.backoff, workqueue.baseDelay. do 3 f_equal. lia. }
  split; [assumption|]. split; [assumption|]. split.
  { rewrite Hw. f_equal. by rewrite <- list_fmap_compose. }
  split; [by rewrite length_fmap, length_seq|]. split.
  { rewrite last_lookup, length_fmap, length_seq.
    replace (Nat.pred K) with (K - 1)%nat by lia. apply Hlook. lia. }
  split; [assumption|].
  intros i j di dj Hi Hj Hij.
  rewrite list_lookup_fmap in Hi, Hj.
  destruct (seq 1 K !! i) as [ni|] eqn:Hni; [|discriminate].
  destruct (seq 1 K !! j) as [nj|] eqn:Hnj; [|discriminate].
  apply lookup_seq in Hni as [-> _]. apply lookup_seq in Hnj as [-> _].
  cbn in Hi, Hj. injection Hi as <-. injection Hj as <-.
  apply backoff_increasing. lia.
Qed.

End Backoff.

(** ** The properties on the scripted world *)

Section Examples.
Import fake.

(** C1, as the design document words it, fails: the config object lacks
    the field mao-config, so stage 2 of the pipeline fails for the key
    the worker pulled; the process is terminated inside sync, and
    handleErr is never called (the only call on the queue is Get). *)
Lemma worker_exits_when_stage_2_fails :
  let s := queued (world_with ∅ no_refusals) in
  let r := processNextWorkItem optr s in
  syncHandler optr = sync optr /\
  fst <$> workqueue.Get (queue s) = Some (key, false) /\
  calls (events r)
  = [(fn_syncCustomResourceDefinitions, None);
     (fn_getOperatorConfig, Some "mao-config doesn't exist")] /\
  queue_calls (events r) = [CallGet] /\
  (exists s', result_of r = Exit s') /\
  ~ (exists b s', result_of r = Ret b s').
Proof.
  cbn zeta. split; [reflexivity|]. split; [reflexivity|].
  split; [vm_compute; reflexivity|]. split; [vm_compute; reflexivity|].
  split; [eexists; vm_compute; reflexivity|].
  intros (b & s' & Hr). vm_compute in Hr. discriminate.
Qed.

Lemma pipeline_error_reaches_handleErr_unless_fatal_witness :
  let s := queued (world_with good_fields (refuse fn_syncAll 1)) in
  let q' := workqueue.mkQueue [] {[key]} ∅ [] false in
  syncHandler optr = sync optr /\
  workqueue.Get (queue s) = Some (key, false, q') /\
  ((exists (k : nat) (f : callee) (r : option error) evs,
      stage_order !! k = Some f /\
      events (sync optr key (set_queue (fun _ => q') s)) = evs /\
      last (calls evs) = Some (f, r) /\
      if bool_decide (is_Some r) && halts f then
        exists s1,
          processNextWorkItem optr s = (EvQueue CallGet :: evs, Exit s1) /\
          queue_calls (events (processNextWorkItem optr s)) = [CallGet] /\
          length (fatal_lines evs) = 1%nat
      else
        exists s1 evs_e s2,
          handleErr optr r key s1 = (evs_e, Ret tt s2) /\
          processNextWorkItem optr s
          = (EvQueue CallGet :: evs ++ evs_e ++ [EvQueue (CallDone key)],
             Ret true (set_queue (workqueue.Done key) s2)) /\
          fatal_lines (events (processNextWorkItem optr s)) = [])
   /\ (forall (err : option error) key0 s0,
         exists evs_e s2, handleErr optr err key0 s0 = (evs_e, Ret tt s2))).
Proof.
  cbn zeta. split; [reflexivity|]. split; [vm_compute; reflexivity|].
  apply pipeline_error_reaches_handleErr_unless_fatal; [reflexivity|].
  vm_compute; reflexivity.
Defined.

(** C2, as the design document words it, fails: the cluster object goes
    through on the first tick and the machine set does not; on the
    second tick the cluster creation is attempted again. *)
Lemma cluster_creation_is_repeated_after_success :
  let s := queued (world_with good_fields (refuse fn_syncMachineSets 1)) in
  let cs := creations (calls (events (wait_Poll 2 (Run_condition optr) s))) in
  cs = [(fn_syncCluster, None); (fn_syncMachineSets, Some "refused");
        (fn_syncCluster, None); (fn_syncMachineSets, None)] /\
  retried_after_success fn_syncCluster cs = true.
Proof. cbn zeta. split; vm_compute; reflexivity. Qed.

(** C4, as the design document words it, fails: when stage 2 fails, the
    pipeline of the document returns the error of that stage, and sync,
    after the same calls, returns nothing: the process is gone. *)
Lemma sync_does_not_return_the_error_of_stage_2 :
  let s := queued (world_with ∅ no_refusals) in
  calls (events (sync optr key s))
  = [(fn_syncCustomResourceDefinitions, None);
     (fn_getOperatorConfig, Some "mao-config doesn't exist")] /\
  (exists s', result_of (Sync_as_specified optr s)
              = Ret (Some "mao-config doesn't exist") s' /\
              result_of (sync optr key s) = Exit s') /\
  ~ (exists err s', result_of (sync optr key s) = Ret err s').
Proof.
  cbn zeta. split; [vm_compute; reflexivity|]. split.
  - eexists. split; vm_compute; reflexivity.
  - intros (err & s' & Hr). vm_compute in Hr. discriminate.
Qed.

(** C7, as the design document words it, fails: the deployment cache is
    in sync and the six other caches never are; Run starts the
    bootstrap loop and both workers all the same. *)
Lemma workers_start_while_other_caches_lag :
  let o := optr_with always never in
  let s := queued (world_with good_fields no_refusals) in
  (forall t, machineSetSynced o t = false /\ crdListerSynced o t = false) /\
  started (events (Run 1 o 2 None s)) = [GoBootstrap; GoWorker; GoWorker].
Proof. cbn zeta. split; [intros t; split; reflexivity|vm_compute; reflexivity]. Qed.

Lemma Run_waits_for_the_deployment_cache_witness :
  let o := optr_with never never in
  let s := queued (world_with good_fields no_refusals) in
  let r := Run 3 o 2 (Some 1%nat) s in
  Some 1%nat = Some 1%nat /\
  (forall t', (t' <= 1)%nat -> deployListerSynced o t' = false) /\
  (1 < 3)%nat /\
  started (events r) = [] /\
  result_of r = Ret tt (set_queue workqueue.ShutDown s).
Proof.
  cbn zeta. split; [reflexivity|]. split; [reflexivity|]. split; [lia|].
  apply (proj2 (Run_waits_for_the_deployment_cache 3 (optr_with never never) 2
                  (Some 1%nat) (queued (world_with good_fields no_refusals))) 1%nat);
    [reflexivity|reflexivity|lia].
Defined.

Lemma backoff_doubles_until_the_drop_witness :
  let s := queued (world_with good_fields no_refusals) in
  workqueue.failures (queue s) !! key = None /\
  (1 <= 3 < 15)%nat /\
  exists evs s' (delays : list Z),
    fail_repeatedly 3 optr refused key s = (evs, Ret tt s') /\
    reported evs = [] /\
    workqueue.waiting (queue s')
    = workqueue.waiting (queue s) ++ ((fun d => (key, d)) <$> delays) /\
    length delays = 3%nat /\
    last delays = Some (5000000 * 2 ^ (Z.of_nat 3 - 1)) /\
    (forall J : nat, (1 <= J <= 3)%nat ->
       delays !! (J - 1)%nat = Some (5000000 * 2 ^ (Z.of_nat J - 1))) /\
    (forall (i j : nat) di dj,
       delays !! i = Some di -> delays !! j = Some dj -> (i < j)%nat -> di < dj).
Proof.
  cbn zeta. split; [reflexivity|]. split; [lia|].
  apply backoff_doubles_until_the_drop; [reflexivity|lia].
Defined.

(** The first three delays: 5ms, 10ms, 20ms. *)
Example three_failures_wait_5_10_20_ms :
  match result_of (fail_repeatedly 3 optr refused key
                     (queued (world_with good_fields no_refusals))) with
  | Ret _ s' => snd <$> workqueue.waiting (queue s')
  | _ => []
  end = [5000000; 10000000; 20000000].
Proof. vm_compute. reflexivity. Qed.

End Examples.

(** ** The further properties on the scripted world *)

Section MoreExamples.
Import fake.

Lemma Type_AddRateLimited_counts k (q : workqueue.Type_) :
  workqueue.NumRequeues k (workqueue.AddRateLimited k q) = workqueue.NumRequeues k q + 1.
Proof.
  cbn. unfold workqueue.Type_NumRequeues, workqueue.Type_AddRateLimited. cbn.
  rewrite lookup_insert_eq. cbn. lia.
Qed.

Lemma Type_Forget_resets k (q : workqueue.Type_) :
  workqueue.NumRequeues k (workqueue.Forget k q) = 0.
Proof.
  cbn. unfold workqueue.Type_NumRequeues, workqueue.Type_Forget. cbn.
  by rewrite lookup_delete_eq.
Qed.

Lemma the_16th_failure_drops_the_key_witness :
  let s := queued (world_with good_fields no_refusals) in
  (forall k (q : workqueue.Type_),
     workqueue.NumRequeues k (workqueue.AddRateLimited k q)
     = workqueue.NumRequeues k q + 1) /\
  (forall k (q : workqueue.Type_), workqueue.NumRequeues k (workqueue.Forget k q) = 0) /\
  workqueue.NumRequeues key (queue s) = 0 /\
  exists evs s',
    fail_repeatedly 16 optr refused key s = (evs, Ret tt s') /\
    queue_calls evs
    = concat (replicate 15 [CallNumRequeues key; CallAddRateLimited key])
      ++ [CallNumRequeues key; CallForget key] /\
    reported evs = [refused] /\
    workqueue.NumRequeues key (queue s') = 0.
Proof.
  cbn zeta. split; [exact Type_AddRateLimited_counts|].
  split; [exact Type_Forget_resets|]. split; [reflexivity|].
  apply the_16th_failure_drops_the_key;
    [exact Type_AddRateLimited_counts|exact Type_Forget_resets|reflexivity].
Defined.

Lemma success_restores_the_retry_budget_witness :
  let s := queued (world_with good_fields no_refusals) in
  (forall k (q : workqueue.Type_), workqueue.NumRequeues k (workqueue.Forget k q) = 0) /\
  exists s1,
    handleErr optr None key s = ([EvQueue (CallForget key)], Ret tt s1) /\
    handleErr optr (Some refused) key s1
    = ([EvQueue (CallNumRequeues key);
        EvLog (Verbose 2) "Error syncing operator %v: %v" [LString key; LString refused];
        EvQueue (CallAddRateLimited key)],
       Ret tt (set_queue (workqueue.AddRateLimited key) s1)).
Proof.
  cbn zeta. split; [exact Type_Forget_resets|].
  apply success_restores_the_retry_budget. exact Type_Forget_resets.
Defined.

Lemma resolved_TargetNamespace_is_set_witness :
  let s := queued (world_with good_fields no_refusals) in
  let c := mkOperatorConfig "openshift-machine-api" "libvirt" None in
  namespace optr <> EmptyString /\
  result_of (getOperatorConfig optr s) = Ret (Ok c) s /\
  TargetNamespace c <> EmptyString.
Proof.
  cbn zeta. split; [discriminate|]. split; [vm_compute; reflexivity|].
  apply (resolved_TargetNamespace_is_set optr
           (queued (world_with good_fields no_refusals)) _
           (queued (world_with good_fields no_refusals)));
    [discriminate|vm_compute; reflexivity].
Defined.

Lemma worker_acknowledges_every_item_witness :
  let s := queued (world_with good_fields no_refusals) in
  syncHandler optr = sync optr /\
  let r := worker 2 optr s in
  let gets := count is_Get (events r) in
  let dones := count is_Done (events r) in
  acknowledged (queue_calls (events r)) (queue s) None = true /\
  match result_of r with
  | Ret _ _ => gets = S dones /\ fatal_lines (events r) = []
  | Exit _ => gets = S dones /\ length (fatal_lines (events r)) = 1%nat
  | Pending _ => (gets = dones \/ gets = S dones) /\ fatal_lines (events r) = []
  end.
Proof.
  cbn zeta. split; [reflexivity|].
  apply (worker_acknowledges_every_item 2 optr
           (queued (world_with good_fields no_refusals))). reflexivity.
Defined.

Lemma Run_starts_the_bootstrap_first_witness :
  let s := queued (world_with good_fields no_refusals) in
  let r := Run 1 optr (-1) None s in
  -1 <= 0 /\ deployListerSynced optr O = true /\ (0 < 1)%nat /\
  started (events r) = [GoBootstrap].
Proof.
  cbn zeta. split; [lia|]. split; [reflexivity|]. split; [lia|].
  apply (proj2 (Run_starts_the_bootstrap_first 1 optr (-1) None
                  (queued (world_with good_fields no_refusals))));
    [lia|reflexivity|lia].
Defined.

Lemma bootstrap_dies_on_a_missing_config_field_witness :
  let s := queued (world_with ∅ no_refusals) in
  ConfigMaps_Get "kube-system" "cluster-config-v1" (world s) = Ok (mkConfigMap ∅) /\
  Data (mkConfigMap ∅) !! "mao-config" = None /\
  Run_bootstrap 3 optr s
  = ([EvGetConfigMap "kube-system" "cluster-config-v1";
      EvCall fn_getOperatorConfig (Some "mao-config doesn't exist");
      EvLog Fatal "Error out while trying to deploy machines: %v"
            [LString "error decoding operator config: mao-config doesn't exist"]],
     Exit s).
Proof.
  cbn zeta. split; [reflexivity|]. split; [reflexivity|].
  apply (bootstrap_dies_on_a_missing_config_field 2 optr
           (queued (world_with ∅ no_refusals)) (mkConfigMap ∅)); reflexivity.
Defined.

(** The modelled queue hands out no key that a worker still holds. *)
Lemma take_ready_not_held held keys key rest :
  workqueue.take_ready held keys = Some (key, rest) -> key ∉ held.
Proof.
  revert rest. induction keys as [|k keys IH]; intros rest; cbn; [discriminate|].
  case_bool_decide as Hk.
  - destruct (workqueue.take_ready held keys) as [[key' rest']|]; [|discriminate].
    intros [= <- <-]. by eapply IH.
  - by intros [= <- <-].
Qed.

Lemma Type_Get_hands_out_no_held_key (q q' : workqueue.Type_) key :
  workqueue.Get q = Some (key, false, q') ->
  key ∉ workqueue.processing q /\ key ∈ workqueue.processing q'.
Proof.
  cbn. unfold workqueue.Type_Get.
  destruct (workqueue.take_ready _ _) as [[k rest]|] eqn:Ht.
  - intros [= <- <-]. split; [by eapply take_ready_not_held|]. cbn. set_solver.
  - destruct (workqueue.shuttingDown q); discriminate.
Qed.

(** A key added again while a worker holds it waits for the Done. *)
Example key_added_while_held_waits_for_Done :
  let q0 := workqueue.Add key workqueue.empty in
  match workqueue.Get q0 with
  | Some (k, false, q1) =>
      let q2 := workqueue.Add key q1 in
      k = key /\ workqueue.Get q2 = None /\
      fst <$> workqueue.Get (workqueue.Done key q2) = Some (key, false)
  | _ => False
  end.
Proof. vm_compute. repeat split. Qed.

End MoreExamples.
